(** * Emelia MCP server: the credential holder, the request dispatcher
      and the tool handlers that call it.

    The development embeds [helpers.ts] (credential cell, [makeEmeliaRequest],
    [formatCampaign]) and the tool registrations of [index.ts] as Rocq
    functions over an explicit world (credential cell, diagnostic log, log of
    the calls handed to the transport), and proves the properties the
    specification states about them. *)

From stdpp Require Import base option list strings gmap fin_maps pretty.

Open Scope string_scope.
Set Warnings "-register-all".

(** ** JavaScript values as the program sees them *)

Module JS.

(** Values that travel through the program: parsed response bodies, tool
    arguments and the property values of plain objects.  A number is
    carried as the decimal text [String(n)] gives for it, so that printing
    it and testing it against zero need no floating point: both zeros print
    as [0], and [NaN] and the infinities do not occur in parsed JSON. *)
Inductive JSON : Type :=
| JNull
| JBool (b : bool)
| JNum (text : string)
| JStr (s : string)
| JArr (items : list JSON)
| JObj (fields : list (string * JSON)).

(** A value thrown by [throw] or carried by a rejected promise: an [Error]
    object with its [name] and [message]. *)
Inductive Thrown : Type :=
| JsError (name message : string).

(** How an [async] function settles. *)
Inductive Outcome (A : Type) : Type :=
| Returns (a : A)
| Throws (e : Thrown).
Global Arguments Returns {A} a.
Global Arguments Throws {A} e.

(** Line feed and the double quote, spelled by their codes. *)
Definition LF : string := String (Ascii.ascii_of_nat 10) EmptyString.
Definition DQ : string := String (Ascii.ascii_of_nat 34) EmptyString.
Definition BACKSLASH : string := String (Ascii.ascii_of_nat 92) EmptyString.

(** [ToBoolean] on a value. *)
Definition truthy (v : JSON) : bool :=
  match v with
  | JNull => false
  | JBool b => b
  | JNum text => negb (String.eqb text "0")
  | JStr s => negb (String.eqb s EmptyString)
  | JArr _ | JObj _ => true
  end.

(** [ToBoolean] on a [string | null] (or [string | undefined]) cell. *)
Definition truthy_str (v : option string) : bool :=
  match v with
  | Some s => negb (String.eqb s EmptyString)
  | None => false
  end.

(** [ToBoolean] on a possibly [undefined] value. *)
Definition truthy_opt (a : option JSON) : bool :=
  match a with
  | Some v => truthy v
  | None => false
  end.

(** [a || b] on a possibly [undefined] value. *)
Definition or_else (a : option JSON) (b : JSON) : JSON :=
  match a with
  | Some v => if truthy v then v else b
  | None => b
  end.

(** Own property lookup in the field list of an object. *)
Fixpoint assoc (key : string) (fields : list (string * JSON)) : option JSON :=
  match fields with
  | [] => None
  | (k, v) :: rest => if String.eqb k key then Some v else assoc key rest
  end.

(** [v.key] for the data property names the handlers read ([campaigns],
    [success], [_id], [name], [status]): [None] is [undefined]; reading a
    property of [null] throws.  [length] is answered for arrays and
    strings. *)
Definition get (v : JSON) (key : string) : Outcome (option JSON) :=
  match v with
  | JNull =>
      Throws (JsError "TypeError"
                ("Cannot read properties of null (reading '" +:+ key +:+ "')"))
  | JObj fields => Returns (assoc key fields)
  | JArr items =>
      Returns (if String.eqb key "length"
               then Some (JNum (pretty (length items))) else None)
  | JStr s =>
      Returns (if String.eqb key "length"
               then Some (JNum (pretty (String.length s))) else None)
  | JBool _ | JNum _ => Returns None
  end.

(** [a === 0] for a possibly [undefined] value. *)
Definition is_zero (a : option JSON) : bool :=
  match a with
  | Some (JNum text) => String.eqb text "0"
  | _ => false
  end.

Definition join (sep : string) (parts : list string) : string :=
  String.concat sep parts.

(** The error of a conversion to a primitive that finds no method to
    call. *)
Definition not_convertible : Thrown :=
  JsError "TypeError" "Cannot convert object to primitive value".

(** [String(v)], the coercion a template literal applies.  An array is
    joined with commas, a [null] element giving the empty text.  A parsed
    object is converted by the inherited [toString], unless it has a member
    of that name of its own: such a member is never a function, the
    inherited [valueOf] returns the object itself, and the conversion
    throws. *)
Fixpoint to_string (v : JSON) : Outcome string :=
  match v with
  | JNull => Returns "null"
  | JBool true => Returns "true"
  | JBool false => Returns "false"
  | JNum text => Returns text
  | JStr s => Returns s
  | JArr items =>
      match
        (fix elements (l : list JSON) : Outcome (list string) :=
           match l with
           | [] => Returns []
           | x :: rest =>
               match (match x with
                      | JNull => Returns EmptyString
                      | _ => to_string x
                      end) with
               | Returns part =>
                   match elements rest with
                   | Returns parts => Returns (part :: parts)
                   | Throws e => Throws e
                   end
               | Throws e => Throws e
               end
           end) items
      with
      | Returns parts => Returns (join "," parts)
      | Throws e => Throws e
      end
  | JObj fields =>
      match assoc "toString" fields with
      | Some _ => Throws not_convertible
      | None => Returns "[object Object]"
      end
  end.

(** The same coercion on a [string | null] cell. *)
Definition template_str (v : option string) : string :=
  match v with
  | Some s => s
  | None => "null"
  end.

End JS.
Import JS.

(** ** The platform: requests, responses and the world *)

(** [HeadersInit], the type of [RequestInit.headers]: a plain name-to-value
    object, an array of name/value pairs, or a [Headers] instance. *)
Inductive HeadersInit : Type :=
| HeadersRecord (fields : gmap string string)
| HeadersPairs (pairs : list (list string))
| HeadersInstance (entries : list (string * string)).

(** The members of [RequestInit] that callers of the dispatcher set. *)
Record RequestInit : Type := mkRequestInit {
  method : option string;
  body : option string;
  headers : option HeadersInit
}.

(** The object literal handed to [fetch] as its second argument: the
    caller's members and a [headers] member that is a plain object. *)
Record RequestOptions : Type := mkRequestOptions {
  req_method : option string;
  req_body : option string;
  req_headers : gmap string JSON
}.

(** A [Response]: its [status] and what [json()] settles to ([None]: the
    body is not valid JSON and the promise rejects). *)
Record Response : Type := mkResponse {
  status : N;
  json : option JSON
}.

(** [response.ok]: the status is in the range 200 to 299. *)
Definition ok (r : Response) : bool :=
  (200 <=? status r)%N && (status r <=? 299)%N.

(** How a [fetch] promise settles. *)
Inductive FetchResult : Type :=
| Rejected (e : Thrown)
| Resolved (r : Response).

(** The transport and the remote side behind it: what
    [fetch(url, requestOptions)] settles to, given the calls received so
    far. *)
Definition Transport : Type :=
  list (string * RequestOptions) -> string -> RequestOptions -> FetchResult.

(** One [console.error] call: the message and the value logged after it. *)
Inductive LogLine : Type :=
| LogMessage (msg : string)
| LogError (msg : string) (error : Thrown).

(** The process-wide state: the module variable [userApiKey], the
    diagnostics written so far and the calls made to [fetch] so far
    (oldest first). *)
Record World : Type := mkWorld {
  userApiKey : option string;
  console : list LogLine;
  network : list (string * RequestOptions)
}.

(** The world at startup. *)
Definition startup : World :=
  {| userApiKey := None; console := []; network := [] |}.

(** ** Asynchronous computations over the world *)

Definition Async (A : Type) : Type := World -> World * Outcome A.

Definition async_ret {A} (a : A) : Async A := fun w => (w, Returns a).

Definition async_bind {A B} (f : A -> Async B) (m : Async A) : Async B :=
  fun w =>
    match m w with
    | (w', Returns a) => f a w'
    | (w', Throws e) => (w', Throws e)
    end.

Global Instance Async_ret : MRet Async := @async_ret.
Global Instance Async_bind : MBind Async := @async_bind.

(** [throw e]. *)
Definition throw {A} (e : Thrown) : Async A := fun w => (w, Throws e).

(** [try { m } catch (error) { handler error }]. *)
Definition try_catch {A} (m : Async A) (handler : Thrown -> Async A) : Async A :=
  fun w =>
    match m w with
    | (w', Returns a) => (w', Returns a)
    | (w', Throws e) => handler e w'
    end.

(** Settling of a synchronous partial result inside an [async] body. *)
Definition lift {A} (o : Outcome A) : Async A := fun w => (w, o).

(** The world once one more line has been written to the console. *)
Definition logged (l : LogLine) (w : World) : World :=
  {| userApiKey := userApiKey w;
     console := console w ++ [l];
     network := network w |}.

(** The world once one more call has been handed to the transport. *)
Definition called (url : string) (requestOptions : RequestOptions) (w : World)
  : World :=
  {| userApiKey := userApiKey w;
     console := console w;
     network := network w ++ [(url, requestOptions)] |}.

Definition console_error (l : LogLine) : Async unit :=
  fun w => (logged l w, Returns tt).

(** The own enumerable properties an object spread copies out of a
    [HeadersInit]: the fields of a plain object; the index keys of an array,
    each holding its pair; nothing for a [Headers] instance, whose entries
    sit behind its methods. *)
Definition own_enumerable (h : HeadersInit) : gmap string JSON :=
  match h with
  | HeadersRecord fields => JStr <$> fields
  | HeadersPairs pairs =>
      list_to_map (imap (fun i p => (pretty i, JArr (JStr <$> p))) pairs)
  | HeadersInstance _ => ∅
  end.

(** [{ ...base, ...over }]: later properties win. *)
Definition spread (base over : gmap string JSON) : gmap string JSON :=
  over ∪ base.

(** ** helpers.ts *)

Definition USER_AGENT : string := "emelia-mcp/1.0".

Definition setEmeliaApiKey (apiKey : string) (w : World) : World :=
  {| userApiKey := Some apiKey; console := console w; network := network w |}.

Definition clearEmeliaApiKey (w : World) : World :=
  {| userApiKey := None; console := console w; network := network w |}.

(** [return userApiKey || null] *)
Definition getEmeliaApiKey (w : World) : option string :=
  if truthy_str (userApiKey w) then userApiKey w else None.

(** The two diagnostics of the dispatcher and the error it throws at a
    response that is not [ok]. *)
Definition no_key_diagnostic : LogLine :=
  LogMessage "No API key available. Please set your Emelia API key.".

Definition request_error_diagnostic (error : Thrown) : LogLine :=
  LogError "Error making Emelia API request:" error.

Definition http_error (r : Response) : Thrown :=
  JsError "Error" ("HTTP error! status: " +:+ pretty (status r)).

(** The [SyntaxError] of a body that does not parse; its message, which
    depends on the engine and on the body, is a placeholder here. *)
Definition json_syntax_error : Thrown :=
  JsError "SyntaxError" "Unexpected token in JSON".

(** [await response.json()]. *)
Definition response_json (r : Response) : Async JSON :=
  match json r with
  | Some v => mret v
  | None => throw json_syntax_error
  end.

Section Dispatcher.

Variable transport : Transport.

(** [await fetch(url, requestOptions)]: the call is recorded, then the
    promise settles as the transport says. *)
Definition fetch (url : string) (requestOptions : RequestOptions) : Async Response :=
  fun w =>
    match transport (network w) url requestOptions with
    | Rejected e => (called url requestOptions w, Throws e)
    | Resolved r => (called url requestOptions w, Returns r)
    end.

(** [const headers = { ... }]: the fixed header object built from the key. *)
Definition fixed_headers (apiKey : option string) : gmap string JSON :=
  {[ "User-Agent" := JStr USER_AGENT;
     "Accept" := JStr "application/json";
     "Authorization" := JStr ("Bearer " +:+ template_str apiKey);
     "Content-Type" := JStr "application/json" ]}.

(** [options?.headers || {}], as the properties the spread then reads. *)
Definition caller_headers (options : option RequestInit) : gmap string JSON :=
  match options with
  | Some o =>
      match headers o with
      | Some h => own_enumerable h
      | None => ∅
      end
  | None => ∅
  end.

(** [{ ...options, headers: { ...headers, ...(options?.headers || {}) } }] *)
Definition request_options (fixed : gmap string JSON)
    (options : option RequestInit) : RequestOptions :=
  {| req_method := options ≫= method;
     req_body := options ≫= body;
     req_headers := spread fixed (caller_headers options) |}.

Definition makeEmeliaRequest (url : string) (options : option RequestInit)
  : Async JSON :=
  fun w =>
    let apiKey := getEmeliaApiKey w in
    if negb (truthy_str apiKey) then
      (console_error no_key_diagnostic ;;
       mret JNull) w
    else
      let headers := fixed_headers apiKey in
      try_catch
        (let requestOptions := request_options headers options in
         response ← fetch url requestOptions ;
         if negb (ok response) then
           throw (http_error response)
         else
           response_json response)
        (fun error =>
           console_error (request_error_diagnostic error) ;;
           mret JNull) w.

(** Dispatches made one after the other, each awaited before the next. *)
Fixpoint dispatch_each (calls : list (string * option RequestInit)) (w : World)
  : World * list (Outcome JSON) :=
  match calls with
  | [] => (w, [])
  | (url, options) :: rest =>
      let (w1, out) := makeEmeliaRequest url options w in
      let (w2, outs) := dispatch_each rest w1 in
      (w2, out :: outs)
  end.

End Dispatcher.

(** [JSON.stringify] on a value: strings are quoted with the control
    characters, the quote and the backslash escaped. *)
Definition hex_digit (n : nat) : string :=
  String (Ascii.ascii_of_nat (if Nat.ltb n 10 then 48 + n else 87 + n)) EmptyString.

Definition quote_char (c : Ascii.ascii) : string :=
  let n := Ascii.nat_of_ascii c in
  if Nat.eqb n 34 then BACKSLASH +:+ DQ
  else if Nat.eqb n 92 then BACKSLASH +:+ BACKSLASH
  else if Nat.eqb n 8 then BACKSLASH +:+ "b"
  else if Nat.eqb n 12 then BACKSLASH +:+ "f"
  else if Nat.eqb n 10 then BACKSLASH +:+ "n"
  else if Nat.eqb n 13 then BACKSLASH +:+ "r"
  else if Nat.eqb n 9 then BACKSLASH +:+ "t"
  else if Nat.ltb n 32 then
    BACKSLASH +:+ "u00" +:+ hex_digit (n / 16) +:+ hex_digit (n mod 16)
  else String c EmptyString.

Fixpoint quote_chars (s : string) : string :=
  match s with
  | EmptyString => EmptyString
  | String c rest => quote_char c +:+ quote_chars rest
  end.

Definition JSON_quote (s : string) : string := DQ +:+ quote_chars s +:+ DQ.

Fixpoint JSON_stringify (v : JSON) : string :=
  match v with
  | JNull => "null"
  | JBool true => "true"
  | JBool false => "false"
  | JNum text => text
  | JStr s => JSON_quote s
  | JArr items => "[" +:+ join "," (map JSON_stringify items) +:+ "]"
  | JObj fields =>
      "{" +:+ join "," (map (fun kv => JSON_quote (fst kv) +:+ ":" +:+ JSON_stringify (snd kv))
                            fields) +:+ "}"
  end.

Global Instance Outcome_ret : MRet Outcome := @Returns.
Global Instance Outcome_bind : MBind Outcome := fun A B f m =>
  match m with
  | Returns a => f a
  | Throws e => Throws e
  end.

(** [items.map(f)] for a callback that may throw; a value without a [map]
    method cannot be called. *)
Fixpoint map_items {A} (f : JSON -> Outcome A) (items : list JSON) : Outcome (list A) :=
  match items with
  | [] => Returns []
  | x :: rest =>
      match f x with
      | Returns y =>
          match map_items f rest with
          | Returns ys => Returns (y :: ys)
          | Throws e => Throws e
          end
      | Throws e => Throws e
      end
  end.

Definition array_map {A} (f : JSON -> Outcome A) (v : JSON) : Outcome (list A) :=
  match v with
  | JArr items => map_items f items
  | _ => Throws (JsError "TypeError" "campaigns.map is not a function")
  end.

Definition formatCampaign (campaign : JSON) : Outcome string :=
  _id ← get campaign "_id" ;
  id_text ← to_string (or_else _id (JStr "-")) ;
  name ← get campaign "name" ;
  name_text ← to_string (or_else name (JStr "-")) ;
  status ← get campaign "status" ;
  status_text ← to_string (or_else status (JStr "-")) ;
  mret (join LF
    [ "Campaign ID: " +:+ id_text;
      "Campaign Name: " +:+ name_text;
      "Campaign Status: " +:+ status_text;
      "Campaign Type: Email";
      "---" ]).

(** ** index.ts *)

Definition EMELIA_REST_API : string := "https://api.emelia.io".

(** What a tool handler returns: [{ content: [{ type: 'text', text }] }]. *)
Inductive ContentItem : Type :=
| TextItem (text : string).

Record ToolResult : Type := mkToolResult { content : list ContentItem }.

Definition text_result (text : string) : ToolResult :=
  {| content := [TextItem text] |}.

(** The text of the authentication guard that opens every handler that
    goes on to call the dispatcher. *)
Definition AUTHENTICATION_REQUIRED : string :=
  "Authentication required. Please use the authenticate tool with your Emelia API key first.".

(** The registered tools that call the dispatcher, other than
    [get-campaigns] and [create-email-campaign]. *)
Inductive RequestTool : Type :=
| add_contact_to_campaign
| get_campaign_contacts
| send_test_email
| get_campaign_stats
| verify_email
| check_email_verification
| get_linkedin_campaigns
| create_linkedin_campaign
| add_contact_to_linkedin_campaign
| get_linkedin_campaign_contacts
| remove_contact_from_linkedin_campaign
| update_linkedin_contact_field
| get_linkedin_campaign_activities
| get_linkedin_campaign_stats
| create_advanced_campaign
| get_advanced_campaigns
| add_contact_to_advanced_campaign
| get_advanced_campaign_contacts
| remove_contact_from_advanced_campaign
| add_contact_to_advanced_list
| get_advanced_campaign_activities
| get_advanced_campaign_stats
| add_to_blacklist
| remove_from_blacklist
| find_email
| check_email_finder
| find_phone
| check_phone_finder
| get_email_providers
| add_email_provider
| get_email_warmups
| enable_email_warmup
| disable_email_warmup
| reply_to_email
| update_contact_field.

Definition request_tool_name (t : RequestTool) : string :=
  match t with
  | add_contact_to_campaign => "add-contact-to-campaign"
  | get_campaign_contacts => "get-campaign-contacts"
  | send_test_email => "send-test-email"
  | get_campaign_stats => "get-campaign-stats"
  | verify_email => "verify-email"
  | check_email_verification => "check-email-verification"
  | get_linkedin_campaigns => "get-linkedin-campaigns"
  | create_linkedin_campaign => "create-linkedin-campaign"
  | add_contact_to_linkedin_campaign => "add-contact-to-linkedin-campaign"
  | get_linkedin_campaign_contacts => "get-linkedin-campaign-contacts"
  | remove_contact_from_linkedin_campaign => "remove-contact-from-linkedin-campaign"
  | update_linkedin_contact_field => "update-linkedin-contact-field"
  | get_linkedin_campaign_activities => "get-linkedin-campaign-activities"
  | get_linkedin_campaign_stats => "get-linkedin-campaign-stats"
  | create_advanced_campaign => "create-advanced-campaign"
  | get_advanced_campaigns => "get-advanced-campaigns"
  | add_contact_to_advanced_campaign => "add-contact-to-advanced-campaign"
  | get_advanced_campaign_contacts => "get-advanced-campaign-contacts"
  | remove_contact_from_advanced_campaign => "remove-contact-from-advanced-campaign"
  | add_contact_to_advanced_list => "add-contact-to-advanced-list"
  | get_advanced_campaign_activities => "get-advanced-campaign-activities"
  | get_advanced_campaign_stats => "get-advanced-campaign-stats"
  | add_to_blacklist => "add-to-blacklist"
  | remove_from_blacklist => "remove-from-blacklist"
  | find_email => "find-email"
  | check_email_finder => "check-email-finder"
  | find_phone => "find-phone"
  | check_phone_finder => "check-phone-finder"
  | get_email_providers => "get-email-providers"
  | add_email_provider => "add-email-provider"
  | get_email_warmups => "get-email-warmups"
  | enable_email_warmup => "enable-email-warmup"
  | disable_email_warmup => "disable-email-warmup"
  | reply_to_email => "reply-to-email"
  | update_contact_field => "update-contact-field"
  end.

(** A validated [tools/call]: the tool and its arguments. *)
Inductive ToolCall : Type :=
| authenticate (api_key : string)
| logout
| get_campaigns (status : option string)
| create_email_campaign (name : string)
| request_tool (t : RequestTool) (args : JSON).

Definition tool_name (c : ToolCall) : string :=
  match c with
  | authenticate _ => "authenticate"
  | logout => "logout"
  | get_campaigns _ => "get-campaigns"
  | create_email_campaign _ => "create-email-campaign"
  | request_tool t _ => request_tool_name t
  end.

(** The handlers that reach the dispatcher. *)
Definition performs_request (c : ToolCall) : bool :=
  match c with
  | authenticate _ | logout => false
  | _ => true
  end.

Section Server.

Variable transport : Transport.

(** What each remaining request tool does once its guard has passed: it
    builds its URL and body from the arguments, awaits the dispatcher once
    and renders the result. *)
Variable after_guard : RequestTool -> JSON -> Async ToolResult.

Definition authenticate_handler (api_key : string) : Async ToolResult :=
  fun w =>
    (setEmeliaApiKey api_key w,
     Returns (text_result
       "Successfully authenticated with Emelia. Your API key has been securely stored for this session.")).

Definition logout_handler : Async ToolResult :=
  fun w =>
    (clearEmeliaApiKey w,
     Returns (text_result "Successfully logged out. Your API key has been cleared.")).

Definition get_campaigns_handler (status : option string) : Async ToolResult :=
  fun w =>
    if negb (truthy_str (getEmeliaApiKey w)) then
      (w, Returns (text_result AUTHENTICATION_REQUIRED))
    else
      (let queryUrl := EMELIA_REST_API +:+ "/emails/campaigns" in
       let queryUrl :=
         if truthy_str status
         then queryUrl +:+ "?status=" +:+ template_str status
         else queryUrl in
       campaignsData ← makeEmeliaRequest transport queryUrl None ;
       if negb (truthy campaignsData) then
         mret (text_result "Failed to retrieve campaigns data")
       else
         campaigns_member ← lift (get campaignsData "campaigns") ;
         let campaigns := or_else campaigns_member (JArr []) in
         campaigns_length ← lift (get campaigns "length") ;
         if is_zero campaigns_length then
           mret (text_result "No active campaigns")
         else
           formattedCampaigns ← lift (array_map formatCampaign campaigns) ;
           let campaignsText :=
             "Campaigns list:" +:+ LF +:+ LF +:+ join LF formattedCampaigns in
           mret (text_result campaignsText)) w.

Definition create_email_campaign_handler (name : string) : Async ToolResult :=
  fun w =>
    if negb (truthy_str (getEmeliaApiKey w)) then
      (w, Returns (text_result AUTHENTICATION_REQUIRED))
    else
      (response ← makeEmeliaRequest transport
                    (EMELIA_REST_API +:+ "/emails/campaigns")
                    (Some {| method := Some "POST";
                             body := Some (JSON_stringify (JObj [("name", JStr name)]));
                             headers := None |}) ;
       failed ← (if negb (truthy response) then mret true
                 else success ← lift (get response "success") ;
                      mret (negb (truthy_opt success))) ;
       if (failed : bool) then
         mret (text_result "Failed to create campaign")
       else
         mret (text_result
                 ("Campaign " +:+ DQ +:+ name +:+ DQ +:+ " created successfully!"))) w.

(** The handler of one of the remaining request tools: the guard, then the
    rest of its body. *)
Definition request_tool_handler (t : RequestTool) (args : JSON) : Async ToolResult :=
  fun w =>
    if negb (truthy_str (getEmeliaApiKey w)) then
      (w, Returns (text_result AUTHENTICATION_REQUIRED))
    else
      after_guard t args w.

(** The server routes a call to the handler registered under its name. *)
Definition call_tool (c : ToolCall) : Async ToolResult :=
  match c with
  | authenticate api_key => authenticate_handler api_key
  | logout => logout_handler
  | get_campaigns status => get_campaigns_handler status
  | create_email_campaign name => create_email_campaign_handler name
  | request_tool t args => request_tool_handler t args
  end.

(** Tool calls served one after the other, each completed before the next
    begins. *)
Fixpoint serve (calls : list ToolCall) (w : World)
  : World * list (Outcome ToolResult) :=
  match calls with
  | [] => (w, [])
  | c :: rest =>
      let (w1, out) := call_tool c w in
      let (w2, outs) := serve rest w1 in
      (w2, out :: outs)
  end.

End Server.

(** ** Notions the properties are stated with *)

(** The name/value entries a caller supplies through a [HeadersInit]. *)
Definition header_entries (h : HeadersInit) : list (string * string) :=
  match h with
  | HeadersRecord fields => map_to_list fields
  | HeadersPairs pairs =>
      omap (fun p => match p with [n; v] => Some (n, v) | _ => None end) pairs
  | HeadersInstance entries => entries
  end.

(** The caller's headers when they are absent or a plain name-to-value
    object. *)
Definition plain_headers (options : option RequestInit)
  : option (gmap string string) :=
  match options with
  | None => Some ∅
  | Some o =>
      match headers o with
      | None => Some ∅
      | Some (HeadersRecord fields) => Some fields
      | Some _ => None
      end
  end.

(** The header object of the last call handed to the transport. *)
Definition last_headers (w : World) : gmap string JSON :=
  match last (network w) with
  | Some (_, ro) => req_headers ro
  | None => ∅
  end.

(** Two worlds nothing the program does can tell apart: the credential
    reads the same and the console and the transport saw the same. *)
Definition same_observations (w1 w2 : World) : Prop :=
  getEmeliaApiKey w1 = getEmeliaApiKey w2 /\
  console w1 = console w2 /\
  network w1 = network w2.

(** Transports used in the concrete runs. *)
Definition respond_with (r : Response) : Transport := fun _ _ _ => Resolved r.

Definition unreachable : Transport :=
  fun _ _ _ => Rejected (JsError "TypeError" "fetch failed").

(** A transport whose first call fails to connect and whose later calls
    would be answered. *)
Definition fails_once (r : Response) : Transport :=
  fun received _ _ =>
    match received with
    | [] => Rejected (JsError "TypeError" "fetch failed")
    | _ :: _ => Resolved r
    end.

(** The body [{"success": true, "campaigns": []}], parsed. *)
Definition empty_campaigns_body : JSON :=
  JObj [("success", JBool true); ("campaigns", JArr [])].

(** A rest-of-handler used in the concrete runs: one dispatch, its result
    rendered as text. *)
Definition dispatch_and_render (transport : Transport) (t : RequestTool)
    (args : JSON) : Async ToolResult :=
  response ← makeEmeliaRequest transport
               (EMELIA_REST_API +:+ "/" +:+ request_tool_name t) None ;
  rendered ← lift (to_string response) ;
  mret (text_result rendered).

(** Inputs of the concrete runs: a world holding a key, and a
    [Content-Type] override supplied in each of the three forms. *)
Definition keyed_world : World := setEmeliaApiKey "secret" startup.

Definition campaigns_url : string := EMELIA_REST_API +:+ "/emails/campaigns".

Definition plain_override : option RequestInit :=
  Some {| method := None; body := None;
          headers := Some (HeadersRecord {[ "Content-Type" := "text/plain" ]}) |}.

Definition pair_list_override : option RequestInit :=
  Some {| method := None; body := None;
          headers := Some (HeadersPairs [["Content-Type"; "text/plain"]]) |}.

Definition lowercase_override : option RequestInit :=
  Some {| method := None; body := None;
          headers := Some (HeadersRecord {[ "content-type" := "text/plain" ]}) |}.

Definition instance_override : option RequestInit :=
  Some {| method := None; body := None;
          headers := Some (HeadersInstance [("Content-Type", "text/plain")]) |}.

(** ** index.ts: the tools that submit an action, and two more lists *)

(** [String(v)] on a possibly [undefined] value. *)
Definition to_string_opt (a : option JSON) : Outcome string :=
  match a with
  | Some v => to_string v
  | None => Returns "undefined"
  end.

(** [...(v && { key: v })] inside an object literal: the member is there
    when [v] is a non-empty string. *)
Definition member_if_truthy (key : string) (v : option string)
  : list (string * JSON) :=
  match v with
  | Some s => if negb (String.eqb s EmptyString) then [(key, JStr s)] else []
  | None => []
  end.

(** [!response || !response.success] *)
Definition request_failed (response : JSON) : Async bool :=
  if negb (truthy response) then mret true
  else success ← lift (get response "success") ;
       mret (negb (truthy_opt success)).

(** [items.map(f)] on the value held by the variable [name]. *)
Definition array_map_of {A} (name : string) (f : JSON -> Outcome A) (v : JSON)
  : Outcome (list A) :=
  match v with
  | JArr items => map_items f items
  | _ => Throws (JsError "TypeError" (name +:+ ".map is not a function"))
  end.

Section ActionTools.

Variable transport : Transport.

Definition verify_email_handler (email : string)
  : Async ToolResult :=
  fun w =>
    if negb (truthy_str (getEmeliaApiKey w)) then
      (w, Returns (text_result AUTHENTICATION_REQUIRED))
    else
      (response ← makeEmeliaRequest transport
                    (EMELIA_REST_API +:+ "/tools/verify/email")
                    (Some {| method := Some "POST";
                             body := Some (JSON_stringify (JObj [("email", JStr email)]));
                             headers := None |}) ;
       failed ← request_failed response ;
       if (failed : bool) then
         mret (text_result "Failed to start email verification")
       else
         jobId ← lift (get response "jobId") ;
         jobId_text ← lift (to_string_opt jobId) ;
         mret (text_result
                 ("Email verification job started for " +:+ email +:+ ". Job ID: "
                    +:+ jobId_text +:+ LF
                    +:+ "Use the check-email-verification tool with this job ID to get the results."))) w.

Definition create_linkedin_campaign_handler (name : string)
  : Async ToolResult :=
  fun w =>
    if negb (truthy_str (getEmeliaApiKey w)) then
      (w, Returns (text_result AUTHENTICATION_REQUIRED))
    else
      (response ← makeEmeliaRequest transport
                    (EMELIA_REST_API +:+ "/linkedin/campaigns")
                    (Some {| method := Some "POST";
                             body := Some (JSON_stringify (JObj [("name", JStr name)]));
                             headers := None |}) ;
       failed ← request_failed response ;
       if (failed : bool) then
         mret (text_result "Failed to create LinkedIn campaign")
       else
         mret (text_result
                 ("LinkedIn campaign " +:+ DQ +:+ name +:+ DQ +:+ " created successfully!"))) w.

Definition remove_contact_from_linkedin_campaign_handler (campaign_id : string) (linkedin_url : string)
  : Async ToolResult :=
  fun w =>
    if negb (truthy_str (getEmeliaApiKey w)) then
      (w, Returns (text_result AUTHENTICATION_REQUIRED))
    else
      (response ← makeEmeliaRequest transport
                    (EMELIA_REST_API +:+ "/linkedin/campaign/contacts")
                    (Some {| method := Some "DELETE";
                             body := Some (JSON_stringify (JObj [("id", JStr campaign_id); ("url", JStr linkedin_url)]));
                             headers := None |}) ;
       failed ← request_failed response ;
       if (failed : bool) then
         mret (text_result "Failed to remove contact from LinkedIn campaign")
       else
         mret (text_result
                 ("Contact with LinkedIn URL " +:+ linkedin_url
                    +:+ " removed from campaign successfully!"))) w.

Definition update_linkedin_contact_field_handler (campaign_id : string) (linkedin_url : string) (field_name : string) (field_value : string)
  : Async ToolResult :=
  fun w =>
    if negb (truthy_str (getEmeliaApiKey w)) then
      (w, Returns (text_result AUTHENTICATION_REQUIRED))
    else
      (response ← makeEmeliaRequest transport
                    (EMELIA_REST_API +:+ "/linkedin/contacts")
                    (Some {| method := Some "PATCH";
                             body := Some (JSON_stringify (JObj [("campaignId", JStr campaign_id);
                                         ("url", JStr linkedin_url);
                                         ("fieldName", JStr field_name);
                                         ("fieldValue", JStr field_value)]));
                             headers := None |}) ;
       failed ← request_failed response ;
       if (failed : bool) then
         mret (text_result "Failed to update LinkedIn contact custom field")
       else
         mret (text_result
                 ("Custom field " +:+ DQ +:+ field_name +:+ DQ +:+ " updated to "
                    +:+ DQ +:+ field_value +:+ DQ
                    +:+ " for contact with LinkedIn URL " +:+ linkedin_url))) w.

Definition create_advanced_campaign_handler (name : string)
  : Async ToolResult :=
  fun w =>
    if negb (truthy_str (getEmeliaApiKey w)) then
      (w, Returns (text_result AUTHENTICATION_REQUIRED))
    else
      (response ← makeEmeliaRequest transport
                    (EMELIA_REST_API +:+ "/advanced/campaigns")
                    (Some {| method := Some "POST";
                             body := Some (JSON_stringify (JObj [("name", JStr name)]));
                             headers := None |}) ;
       failed ← request_failed response ;
       if (failed : bool) then
         mret (text_result "Failed to create advanced campaign")
       else
         campaignId ← lift (get response "campaignId") ;
         campaignId_text ← lift (to_string_opt campaignId) ;
         mret (text_result
                 ("Advanced campaign " +:+ DQ +:+ name +:+ DQ
                    +:+ " created successfully! Campaign ID: "
                    +:+ campaignId_text))) w.

Definition add_to_blacklist_handler (email : string)
  : Async ToolResult :=
  fun w =>
    if negb (truthy_str (getEmeliaApiKey w)) then
      (w, Returns (text_result AUTHENTICATION_REQUIRED))
    else
      (response ← makeEmeliaRequest transport
                    (EMELIA_REST_API +:+ "/emails/blacklists/contact")
                    (Some {| method := Some "POST";
                             body := Some (JSON_stringify (JObj [("email", JStr email)]));
                             headers := None |}) ;
       failed ← request_failed response ;
       if (failed : bool) then
         mret (text_result "Failed to add to blacklist")
       else
         mret (text_result
                 ("Successfully added " +:+ email +:+ " to the blacklist"))) w.

Definition remove_from_blacklist_handler (email : string)
  : Async ToolResult :=
  fun w =>
    if negb (truthy_str (getEmeliaApiKey w)) then
      (w, Returns (text_result AUTHENTICATION_REQUIRED))
    else
      (response ← makeEmeliaRequest transport
                    (EMELIA_REST_API +:+ "/emails/blacklists/contact")
                    (Some {| method := Some "DELETE";
                             body := Some (JSON_stringify (JObj [("email", JStr email)]));
                             headers := None |}) ;
       failed ← request_failed response ;
       if (failed : bool) then
         mret (text_result "Failed to remove from blacklist")
       else
         mret (text_result
                 ("Successfully removed " +:+ email +:+ " from the blacklist"))) w.

(** [{ fullname, companyName: company_name,
      ...(company_website && { companyWebsite: company_website }),
      ...(country && { country }) }] *)
Definition find_email_payload (fullname company_name : string)
    (company_website country : option string) : JSON :=
  JObj ([("fullname", JStr fullname); ("companyName", JStr company_name)]
        ++ member_if_truthy "companyWebsite" company_website
        ++ member_if_truthy "country" country).


Definition find_email_handler (fullname : string) (company_name : string) (company_website : option string) (country : option string)
  : Async ToolResult :=
  fun w =>
    if negb (truthy_str (getEmeliaApiKey w)) then
      (w, Returns (text_result AUTHENTICATION_REQUIRED))
    else
      (response ← makeEmeliaRequest transport
                    (EMELIA_REST_API +:+ "/tools/find/email")
                    (Some {| method := Some "POST";
                             body := Some (JSON_stringify (find_email_payload fullname company_name
                                         company_website country));
                             headers := None |}) ;
       failed ← request_failed response ;
       if (failed : bool) then
         mret (text_result "Failed to start email finder job")
       else
         jobId ← lift (get response "jobId") ;
         jobId_text ← lift (to_string_opt jobId) ;
         mret (text_result
                 ("Email finder job started for " +:+ fullname +:+ " at " +:+ company_name
                    +:+ ". Job ID: " +:+ jobId_text +:+ LF
                    +:+ "Use the check-email-finder tool with this job ID to get the results."))) w.

Definition find_phone_handler (linkedin_url : string)
  : Async ToolResult :=
  fun w =>
    if negb (truthy_str (getEmeliaApiKey w)) then
      (w, Returns (text_result AUTHENTICATION_REQUIRED))
    else
      (response ← makeEmeliaRequest transport
                    (EMELIA_REST_API +:+ "/tools/find/phone")
                    (Some {| method := Some "POST";
                             body := Some (JSON_stringify (JObj [("linkedinUrl", JStr linkedin_url)]));
                             headers := None |}) ;
       failed ← request_failed response ;
       if (failed : bool) then
         mret (text_result "Failed to start phone finder job")
       else
         jobId ← lift (get response "jobId") ;
         jobId_text ← lift (to_string_opt jobId) ;
         mret (text_result
                 ("Phone finder job started for LinkedIn profile: " +:+ linkedin_url
                    +:+ ". Job ID: " +:+ jobId_text +:+ LF
                    +:+ "Use the check-phone-finder tool with this job ID to get the results."))) w.

Definition enable_email_warmup_handler (provider_id : string)
  : Async ToolResult :=
  fun w =>
    if negb (truthy_str (getEmeliaApiKey w)) then
      (w, Returns (text_result AUTHENTICATION_REQUIRED))
    else
      (response ← makeEmeliaRequest transport
                    (EMELIA_REST_API +:+ "/email-providers/warmup/enable")
                    (Some {| method := Some "POST";
                             body := Some (JSON_stringify (JObj [("providerId", JStr provider_id)]));
                             headers := None |}) ;
       failed ← request_failed response ;
       if (failed : bool) then
         mret (text_result "Failed to enable email warmup")
       else
         mret (text_result
                 ("Successfully enabled warmup for email provider with ID: " +:+ provider_id))) w.

Definition disable_email_warmup_handler (provider_id : string)
  : Async ToolResult :=
  fun w =>
    if negb (truthy_str (getEmeliaApiKey w)) then
      (w, Returns (text_result AUTHENTICATION_REQUIRED))
    else
      (response ← makeEmeliaRequest transport
                    (EMELIA_REST_API +:+ "/email-providers/warmup/disable")
                    (Some {| method := Some "POST";
                             body := Some (JSON_stringify (JObj [("providerId", JStr provider_id)]));
                             headers := None |}) ;
       failed ← request_failed response ;
       if (failed : bool) then
         mret (text_result "Failed to disable email warmup")
       else
         mret (text_result
                 ("Successfully disabled warmup for email provider with ID: " +:+ provider_id))) w.

Definition update_contact_field_handler (campaign_id : string) (email : string) (field_name : string) (field_value : string)
  : Async ToolResult :=
  fun w =>
    if negb (truthy_str (getEmeliaApiKey w)) then
      (w, Returns (text_result AUTHENTICATION_REQUIRED))
    else
      (response ← makeEmeliaRequest transport
                    (EMELIA_REST_API +:+ "/emails/contacts")
                    (Some {| method := Some "PATCH";
                             body := Some (JSON_stringify (JObj [("campaignId", JStr campaign_id);
                                         ("email", JStr email);
                                         ("fieldName", JStr field_name);
                                         ("fieldValue", JStr field_value)]));
                             headers := None |}) ;
       failed ← request_failed response ;
       if (failed : bool) then
         mret (text_result "Failed to update contact custom field")
       else
         mret (text_result
                 ("Custom field " +:+ DQ +:+ field_name +:+ DQ +:+ " updated to "
                    +:+ DQ +:+ field_value +:+ DQ
                    +:+ " for contact with email " +:+ email))) w.


(** The arrow function mapped over the campaigns by [get-linkedin-campaigns]. *)
Definition format_linkedin_campaign (campaign : JSON) : Outcome string :=
  _id ← get campaign "_id" ;
  id_text ← to_string (or_else _id (JStr "-")) ;
  name ← get campaign "name" ;
  name_text ← to_string (or_else name (JStr "-")) ;
  status ← get campaign "status" ;
  status_text ← to_string (or_else status (JStr "-")) ;
  account ← get campaign "account" ;
  account_text ← to_string (or_else account (JStr "-")) ;
  mret ("Campaign ID: " +:+ id_text +:+ LF
        +:+ "Name: " +:+ name_text +:+ LF
        +:+ "Status: " +:+ status_text +:+ LF
        +:+ "Account: " +:+ account_text +:+ LF
        +:+ "---").

Definition get_linkedin_campaigns_handler (status : option string)
  : Async ToolResult :=
  fun w =>
    if negb (truthy_str (getEmeliaApiKey w)) then
      (w, Returns (text_result AUTHENTICATION_REQUIRED))
    else
      (let apiUrl := EMELIA_REST_API +:+ "/linkedin/campaigns" in
       let apiUrl :=
         if truthy_str status
         then apiUrl +:+ "?status=" +:+ template_str status
         else apiUrl in
       response ← makeEmeliaRequest transport apiUrl None ;
       failed ← request_failed response ;
       if (failed : bool) then
         mret (text_result "Failed to retrieve LinkedIn campaigns")
       else
         campaigns_member ← lift (get response "campaigns") ;
         let campaigns := or_else campaigns_member (JArr []) in
         campaigns_length ← lift (get campaigns "length") ;
         if is_zero campaigns_length then
           mret (text_result "No LinkedIn campaigns found")
         else
           blocks ← lift (array_map_of "campaigns" format_linkedin_campaign campaigns) ;
           let campaignsText := join LF blocks in
           mret (text_result
                   ("LinkedIn Campaigns:" +:+ LF +:+ LF +:+ campaignsText))) w.

(** The arrow function mapped over the providers by [get-email-providers]. *)
Definition format_email_provider (provider : JSON) : Outcome string :=
  senderName ← get provider "senderName" ;
  senderName_text ← to_string (or_else senderName (JStr "-")) ;
  senderEmail ← get provider "senderEmail" ;
  senderEmail_text ← to_string (or_else senderEmail (JStr "-")) ;
  emailType ← get provider "emailType" ;
  emailType_text ← to_string (or_else emailType (JStr "-")) ;
  disconnected ← get provider "disconnected" ;
  mret ("Sender: " +:+ senderName_text
        +:+ " <" +:+ senderEmail_text +:+ ">" +:+ LF
        +:+ "Type: " +:+ emailType_text +:+ LF
        +:+ "Status: "
        +:+ (if truthy_opt disconnected then "Disconnected" else "Connected")
        +:+ LF +:+ "---").

Definition get_email_providers_handler (filter : option string)
  : Async ToolResult :=
  fun w =>
    if negb (truthy_str (getEmeliaApiKey w)) then
      (w, Returns (text_result AUTHENTICATION_REQUIRED))
    else
      (let apiUrl := EMELIA_REST_API +:+ "/email-providers" in
       let apiUrl :=
         match filter with
         | Some f => if String.eqb f "disconnected"
                     then apiUrl +:+ "?filter=disconnected" else apiUrl
         | None => apiUrl
         end in
       response ← makeEmeliaRequest transport apiUrl None ;
       failed ← request_failed response ;
       if (failed : bool) then
         mret (text_result "Failed to retrieve email providers")
       else
         providers_member ← lift (get response "providers") ;
         let providers := or_else providers_member (JArr []) in
         providers_length ← lift (get providers "length") ;
         if is_zero providers_length then
           mret (text_result "No email providers found")
         else
           blocks ← lift (array_map_of "providers" format_email_provider providers) ;
           let providersText := join LF blocks in
           mret (text_result
                   ("Email Providers:" +:+ LF +:+ LF +:+ providersText))) w.

End ActionTools.

(** ** Notions the further properties are stated with *)

(** [v.key] where the read cannot throw: [None] is [undefined]. *)
Definition member (v : JSON) (key : string) : option JSON :=
  match get v key with
  | Returns o => o
  | Throws _ => None
  end.

(** The test every action tool makes on the dispatcher's result: the result
    is truthy and so is its [success] member. *)
Definition reports_success (response : JSON) : bool :=
  truthy response && truthy_opt (member response "success").

(** The answer made of a rendered text, when rendering returns one. *)
Definition answer_with (rendered : Outcome string) : Outcome ToolResult :=
  match rendered with
  | Returns text => Returns (text_result text)
  | Throws e => Throws e
  end.

(** The value an awaited dispatch yields. *)
Definition value_of (o : Outcome JSON) : JSON :=
  match o with
  | Returns v => v
  | Throws _ => JNull
  end.

(** The tools that submit one action and report whether it was accepted,
    with their validated arguments. *)
Module Action.
Inductive t : Type :=
| create_email_campaign (name : string)
| verify_email (email : string)
| create_linkedin_campaign (name : string)
| remove_contact_from_linkedin_campaign (campaign_id : string) (linkedin_url : string)
| update_linkedin_contact_field (campaign_id : string) (linkedin_url : string) (field_name : string) (field_value : string)
| create_advanced_campaign (name : string)
| add_to_blacklist (email : string)
| remove_from_blacklist (email : string)
| find_email (fullname : string) (company_name : string) (company_website : option string) (country : option string)
| find_phone (linkedin_url : string)
| enable_email_warmup (provider_id : string)
| disable_email_warmup (provider_id : string)
| update_contact_field (campaign_id : string) (email : string) (field_name : string) (field_value : string).
End Action.

(** The handler registered for each of them. *)
Definition run_action (transport : Transport) (a : Action.t) : Async ToolResult :=
  match a with
  | Action.create_email_campaign name =>
      create_email_campaign_handler transport name
  | Action.verify_email email =>
      verify_email_handler transport email
  | Action.create_linkedin_campaign name =>
      create_linkedin_campaign_handler transport name
  | Action.remove_contact_from_linkedin_campaign campaign_id linkedin_url =>
      remove_contact_from_linkedin_campaign_handler transport campaign_id linkedin_url
  | Action.update_linkedin_contact_field campaign_id linkedin_url field_name field_value =>
      update_linkedin_contact_field_handler transport campaign_id linkedin_url field_name field_value
  | Action.create_advanced_campaign name =>
      create_advanced_campaign_handler transport name
  | Action.add_to_blacklist email =>
      add_to_blacklist_handler transport email
  | Action.remove_from_blacklist email =>
      remove_from_blacklist_handler transport email
  | Action.find_email fullname company_name company_website country =>
      find_email_handler transport fullname company_name company_website country
  | Action.find_phone linkedin_url =>
      find_phone_handler transport linkedin_url
  | Action.enable_email_warmup provider_id =>
      enable_email_warmup_handler transport provider_id
  | Action.disable_email_warmup provider_id =>
      disable_email_warmup_handler transport provider_id
  | Action.update_contact_field campaign_id email field_name field_value =>
      update_contact_field_handler transport campaign_id email field_name field_value
  end.

(** What each of them sends and answers, as its handler spells it out: the
    URL, the method, the object given to [JSON.stringify], the text of a
    failure and the text of a success. *)
Definition action_url (a : Action.t) : string :=
  match a with
  | Action.create_email_campaign _ => EMELIA_REST_API +:+ "/emails/campaigns"
  | Action.verify_email _ => EMELIA_REST_API +:+ "/tools/verify/email"
  | Action.create_linkedin_campaign _ => EMELIA_REST_API +:+ "/linkedin/campaigns"
  | Action.remove_contact_from_linkedin_campaign _ _ => EMELIA_REST_API +:+ "/linkedin/campaign/contacts"
  | Action.update_linkedin_contact_field _ _ _ _ => EMELIA_REST_API +:+ "/linkedin/contacts"
  | Action.create_advanced_campaign _ => EMELIA_REST_API +:+ "/advanced/campaigns"
  | Action.add_to_blacklist _ => EMELIA_REST_API +:+ "/emails/blacklists/contact"
  | Action.remove_from_blacklist _ => EMELIA_REST_API +:+ "/emails/blacklists/contact"
  | Action.find_email _ _ _ _ => EMELIA_REST_API +:+ "/tools/find/email"
  | Action.find_phone _ => EMELIA_REST_API +:+ "/tools/find/phone"
  | Action.enable_email_warmup _ => EMELIA_REST_API +:+ "/email-providers/warmup/enable"
  | Action.disable_email_warmup _ => EMELIA_REST_API +:+ "/email-providers/warmup/disable"
  | Action.update_contact_field _ _ _ _ => EMELIA_REST_API +:+ "/emails/contacts"
  end.

Definition action_method (a : Action.t) : string :=
  match a with
  | Action.create_email_campaign _ => "POST"
  | Action.verify_email _ => "POST"
  | Action.create_linkedin_campaign _ => "POST"
  | Action.remove_contact_from_linkedin_campaign _ _ => "DELETE"
  | Action.update_linkedin_contact_field _ _ _ _ => "PATCH"
  | Action.create_advanced_campaign _ => "POST"
  | Action.add_to_blacklist _ => "POST"
  | Action.remove_from_blacklist _ => "DELETE"
  | Action.find_email _ _ _ _ => "POST"
  | Action.find_phone _ => "POST"
  | Action.enable_email_warmup _ => "POST"
  | Action.disable_email_warmup _ => "POST"
  | Action.update_contact_field _ _ _ _ => "PATCH"
  end.

Definition action_payload (a : Action.t) : JSON :=
  match a with
  | Action.create_email_campaign name =>
      JObj [("name", JStr name)]
  | Action.verify_email email =>
      JObj [("email", JStr email)]
  | Action.create_linkedin_campaign name =>
      JObj [("name", JStr name)]
  | Action.remove_contact_from_linkedin_campaign campaign_id linkedin_url =>
      JObj [("id", JStr campaign_id); ("url", JStr linkedin_url)]
  | Action.update_linkedin_contact_field campaign_id linkedin_url field_name field_value =>
      JObj [("campaignId", JStr campaign_id); ("url", JStr linkedin_url);
            ("fieldName", JStr field_name); ("fieldValue", JStr field_value)]
  | Action.create_advanced_campaign name =>
      JObj [("name", JStr name)]
  | Action.add_to_blacklist email =>
      JObj [("email", JStr email)]
  | Action.remove_from_blacklist email =>
      JObj [("email", JStr email)]
  | Action.find_email fullname company_name company_website country =>
      find_email_payload fullname company_name company_website country
  | Action.find_phone linkedin_url =>
      JObj [("linkedinUrl", JStr linkedin_url)]
  | Action.enable_email_warmup provider_id =>
      JObj [("providerId", JStr provider_id)]
  | Action.disable_email_warmup provider_id =>
      JObj [("providerId", JStr provider_id)]
  | Action.update_contact_field campaign_id email field_name field_value =>
      JObj [("campaignId", JStr campaign_id); ("email", JStr email);
            ("fieldName", JStr field_name); ("fieldValue", JStr field_value)]
  end.

Definition action_failure_text (a : Action.t) : string :=
  match a with
  | Action.create_email_campaign _ => "Failed to create campaign"
  | Action.verify_email _ => "Failed to start email verification"
  | Action.create_linkedin_campaign _ => "Failed to create LinkedIn campaign"
  | Action.remove_contact_from_linkedin_campaign _ _ => "Failed to remove contact from LinkedIn campaign"
  | Action.update_linkedin_contact_field _ _ _ _ => "Failed to update LinkedIn contact custom field"
  | Action.create_advanced_campaign _ => "Failed to create advanced campaign"
  | Action.add_to_blacklist _ => "Failed to add to blacklist"
  | Action.remove_from_blacklist _ => "Failed to remove from blacklist"
  | Action.find_email _ _ _ _ => "Failed to start email finder job"
  | Action.find_phone _ => "Failed to start phone finder job"
  | Action.enable_email_warmup _ => "Failed to enable email warmup"
  | Action.disable_email_warmup _ => "Failed to disable email warmup"
  | Action.update_contact_field _ _ _ _ => "Failed to update contact custom field"
  end.

Definition action_success_text (a : Action.t) (response : JSON)
  : Outcome string :=
  match a with
  | Action.create_email_campaign name =>
      Returns ("Campaign " +:+ DQ +:+ name +:+ DQ +:+ " created successfully!")
  | Action.verify_email email =>
      jobId_text ← to_string_opt (member response "jobId") ;
      mret ("Email verification job started for " +:+ email +:+ ". Job ID: "
            +:+ jobId_text +:+ LF
            +:+ "Use the check-email-verification tool with this job ID to get the results.")
  | Action.create_linkedin_campaign name =>
      Returns ("LinkedIn campaign " +:+ DQ +:+ name +:+ DQ +:+ " created successfully!")
  | Action.remove_contact_from_linkedin_campaign campaign_id linkedin_url =>
      Returns ("Contact with LinkedIn URL " +:+ linkedin_url
               +:+ " removed from campaign successfully!")
  | Action.update_linkedin_contact_field campaign_id linkedin_url field_name field_value =>
      Returns ("Custom field " +:+ DQ +:+ field_name +:+ DQ +:+ " updated to "
               +:+ DQ +:+ field_value +:+ DQ
               +:+ " for contact with LinkedIn URL " +:+ linkedin_url)
  | Action.create_advanced_campaign name =>
      campaignId_text ← to_string_opt (member response "campaignId") ;
      mret ("Advanced campaign " +:+ DQ +:+ name +:+ DQ
            +:+ " created successfully! Campaign ID: "
            +:+ campaignId_text)
  | Action.add_to_blacklist email =>
      Returns ("Successfully added " +:+ email +:+ " to the blacklist")
  | Action.remove_from_blacklist email =>
      Returns ("Successfully removed " +:+ email +:+ " from the blacklist")
  | Action.find_email fullname company_name company_website country =>
      jobId_text ← to_string_opt (member response "jobId") ;
      mret ("Email finder job started for " +:+ fullname +:+ " at " +:+ company_name
            +:+ ". Job ID: " +:+ jobId_text +:+ LF
            +:+ "Use the check-email-finder tool with this job ID to get the results.")
  | Action.find_phone linkedin_url =>
      jobId_text ← to_string_opt (member response "jobId") ;
      mret ("Phone finder job started for LinkedIn profile: " +:+ linkedin_url
            +:+ ". Job ID: " +:+ jobId_text +:+ LF
            +:+ "Use the check-phone-finder tool with this job ID to get the results.")
  | Action.enable_email_warmup provider_id =>
      Returns ("Successfully enabled warmup for email provider with ID: " +:+ provider_id)
  | Action.disable_email_warmup provider_id =>
      Returns ("Successfully disabled warmup for email provider with ID: " +:+ provider_id)
  | Action.update_contact_field campaign_id email field_name field_value =>
      Returns ("Custom field " +:+ DQ +:+ field_name +:+ DQ +:+ " updated to "
               +:+ DQ +:+ field_value +:+ DQ
               +:+ " for contact with email " +:+ email)
  end.

(** The URL [get-campaigns] builds: the status filter is appended as it
    is when it is a non-empty string. *)
Definition get_campaigns_url (status : option string) : string :=
  if truthy_str status
  then (EMELIA_REST_API +:+ "/emails/campaigns")
         +:+ "?status=" +:+ template_str status
  else EMELIA_REST_API +:+ "/emails/campaigns".

(** The URL [get-linkedin-campaigns] builds. *)
Definition get_linkedin_campaigns_url (status : option string) : string :=
  if truthy_str status
  then (EMELIA_REST_API +:+ "/linkedin/campaigns")
         +:+ "?status=" +:+ template_str status
  else EMELIA_REST_API +:+ "/linkedin/campaigns".

(** The URL [get-email-providers] builds. *)
Definition get_email_providers_url (filter : option string) : string :=
  if bool_decide (filter = Some "disconnected")
  then (EMELIA_REST_API +:+ "/email-providers") +:+ "?filter=disconnected"
  else EMELIA_REST_API +:+ "/email-providers".

(** A member that is missing or holds a primitive: [null], a boolean, a
    number or a string. *)
Definition primitive_or_missing (member : option JSON) : bool :=
  match member with
  | Some (JArr _) | Some (JObj _) => false
  | _ => true
  end.

(** A campaign whose [_id] is an object with a [toString] member of its
    own, as a parsed body may hold. *)
Definition odd_campaign : JSON :=
  JObj [("_id", JObj [("toString", JNum "1")]); ("name", JStr "Odd")].

(** How a member that is a string, or missing, shows in a rendered line
    that falls back to a dash. *)
Definition shown_or_dash (member : option string) : string :=
  match member with
  | Some s => if String.eqb s EmptyString then "-" else s
  | None => "-"
  end.

(** The request a tool makes when it passes no headers of its own. *)
Definition bearer_request (k : string) (method body : option string)
  : RequestOptions :=
  {| req_method := method; req_body := body;
     req_headers := fixed_headers (Some k) |}.

(** Answers used in the concrete runs of the further properties: an
    accepted action with a job id, an accepted one without, a refused one,
    and campaign lists with and without a [null] entry. *)
Definition accepted : JSON :=
  JObj [("success", JBool true); ("jobId", JStr "j-17")].

Definition accepted_bare : JSON := JObj [("success", JBool true)].

Definition refused : JSON :=
  JObj [("success", JBool false); ("error", JStr "quota exceeded")].

Definition spring_campaign : JSON :=
  JObj [("_id", JStr "65f0"); ("name", JStr "Spring"); ("status", JStr "RUNNING")].

Definition two_campaigns : JSON :=
  JObj [("success", JBool false);
        ("campaigns", JArr [spring_campaign; JObj [("name", JStr "Autumn")]])].

Definition campaigns_with_null : JSON :=
  JObj [("success", JBool true); ("campaigns", JArr [spring_campaign; JNull])].

Definition campaigns_with_account : JSON :=
  JObj [("success", JBool true);
        ("campaigns", JArr [JObj [("_id", JStr "li-1"); ("account", JStr "ada")]])].

Definition answering (v : JSON) : Transport :=
  respond_with {| status := 200; json := Some v |}.

(** The options an action tool hands to the dispatcher. *)
Definition action_options (a : Action.t) : option RequestInit :=
  Some {| method := Some (action_method a);
          body := Some (JSON_stringify (action_payload a));
          headers := None |}.


(** ** The credential holder *)

Lemma userApiKey_set (apiKey : string) (w : World) :
  userApiKey (setEmeliaApiKey apiKey w) = Some apiKey.
Proof. reflexivity. Qed.

Lemma getEmeliaApiKey_Some (w : World) (k : string) :
  getEmeliaApiKey w = Some k ->
  userApiKey w = Some k /\ truthy_str (Some k) = true.
Proof.
  unfold getEmeliaApiKey.
  destruct (truthy_str (userApiKey w)) eqn:E; intros H; [|discriminate].
  rewrite H in E. auto.
Qed.

Lemma getEmeliaApiKey_None (w : World) :
  getEmeliaApiKey w = None ->
  userApiKey w = None \/ userApiKey w = Some EmptyString.
Proof.
  unfold getEmeliaApiKey.
  destruct (userApiKey w) as [[|c s]|]; simpl; auto; discriminate.
Qed.

Lemma getEmeliaApiKey_set (apiKey : string) (w : World) :
  getEmeliaApiKey (setEmeliaApiKey apiKey w) =
  if String.eqb apiKey EmptyString then None else Some apiKey.
Proof.
  unfold getEmeliaApiKey. simpl. destruct (String.eqb apiKey EmptyString); reflexivity.
Qed.

Lemma getEmeliaApiKey_clear (w : World) :
  getEmeliaApiKey (clearEmeliaApiKey w) = None.
Proof. reflexivity. Qed.

Lemma clear_set (apiKey : string) (w : World) :
  clearEmeliaApiKey (setEmeliaApiKey apiKey w) = clearEmeliaApiKey w.
Proof. reflexivity. Qed.

Lemma clear_idempotent (w : World) :
  clearEmeliaApiKey (clearEmeliaApiKey w) = clearEmeliaApiKey w.
Proof. reflexivity. Qed.

Lemma clear_unset (w : World) :
  userApiKey w = None -> clearEmeliaApiKey w = w.
Proof. destruct w as [k c n]. simpl. intros ->. reflexivity. Qed.

Lemma set_set (a b : string) (w : World) :
  setEmeliaApiKey b (setEmeliaApiKey a w) = setEmeliaApiKey b w.
Proof. reflexivity. Qed.

(** ** The dispatcher, case by case *)

Section DispatcherCases.

Variable transport : Transport.

(** Without a credential: one diagnostic, the absent result, no call. *)
Lemma makeEmeliaRequest_unkeyed url options w :
  getEmeliaApiKey w = None ->
  makeEmeliaRequest transport url options w = (logged no_key_diagnostic w, Returns JNull).
Proof.
  intros H. unfold makeEmeliaRequest. rewrite H. reflexivity.
Qed.

(** With a credential: exactly one call, then a case split on how the
    transport settles. *)
Lemma makeEmeliaRequest_keyed url options w k :
  getEmeliaApiKey w = Some k ->
  makeEmeliaRequest transport url options w =
    let ro := request_options (fixed_headers (Some k)) options in
    let w1 := called url ro w in
    match transport (network w) url ro with
    | Rejected e => (logged (request_error_diagnostic e) w1, Returns JNull)
    | Resolved r =>
        if ok r then
          match json r with
          | Some v => (w1, Returns v)
          | None => (logged (request_error_diagnostic json_syntax_error) w1, Returns JNull)
          end
        else (logged (request_error_diagnostic (http_error r)) w1, Returns JNull)
    end.
Proof.
  intros H. destruct (getEmeliaApiKey_Some _ _ H) as [_ Ht].
  unfold makeEmeliaRequest. rewrite H, Ht. cbn [negb].
  unfold try_catch, mbind, Async_bind, async_bind, fetch. cbn zeta.
  destruct (transport _ url _) as [e|r]; [reflexivity|].
  destruct (ok r); cbn [negb]; [|reflexivity].
  unfold response_json. destruct (json r); reflexivity.
Qed.

(** While no credential is set every dispatch of a series is answered
    with the absent result and the transport is never called. *)
Lemma dispatch_each_unkeyed calls w :
  getEmeliaApiKey w = None ->
  snd (dispatch_each transport calls w) = map (fun _ => Returns JNull) calls /\
  network (fst (dispatch_each transport calls w)) = network w /\
  getEmeliaApiKey (fst (dispatch_each transport calls w)) = None.
Proof.
  revert w. induction calls as [|[url options] rest IH]; intros w H.
  - simpl. auto.
  - simpl. rewrite (makeEmeliaRequest_unkeyed url options w H).
    destruct (IH (logged no_key_diagnostic w) H) as (E1 & E2 & E3).
    destruct (dispatch_each transport rest (logged no_key_diagnostic w)) as [w2 outs].
    simpl in *. rewrite E1. auto.
Qed.

End DispatcherCases.

(** ** Worlds that read the same *)

Lemma same_observations_refl w : same_observations w w.
Proof. repeat split. Qed.

(** Once a credential reads as present, worlds that read the same are the
    same world. *)
Lemma same_observations_keyed w1 w2 k :
  same_observations w1 w2 -> getEmeliaApiKey w1 = Some k -> w1 = w2.
Proof.
  intros (Hg & Hc & Hn) H1.
  assert (H2 : getEmeliaApiKey w2 = Some k) by congruence.
  apply getEmeliaApiKey_Some in H1 as [H1 _].
  apply getEmeliaApiKey_Some in H2 as [H2 _].
  destruct w1, w2. simpl in *. congruence.
Qed.

Lemma same_observations_logged l w1 w2 :
  same_observations w1 w2 -> same_observations (logged l w1) (logged l w2).
Proof.
  intros (Hg & Hc & Hn). unfold same_observations, getEmeliaApiKey in *.
  simpl. rewrite Hc. auto.
Qed.

Lemma same_observations_set k w1 w2 :
  same_observations w1 w2 ->
  same_observations (setEmeliaApiKey k w1) (setEmeliaApiKey k w2).
Proof.
  intros (Hg & Hc & Hn). unfold same_observations.
  rewrite !getEmeliaApiKey_set. simpl. auto.
Qed.

Lemma same_observations_clear w1 w2 :
  same_observations w1 w2 ->
  same_observations (clearEmeliaApiKey w1) (clearEmeliaApiKey w2).
Proof.
  intros (Hg & Hc & Hn). unfold same_observations. simpl. auto.
Qed.

Create HintDb emelia.
#[local] Hint Resolve same_observations_refl same_observations_logged
  same_observations_set same_observations_clear : emelia.

Section Indistinguishable.

Variable transport : Transport.
Variable after_guard : RequestTool -> JSON -> Async ToolResult.

Lemma makeEmeliaRequest_same_observations url options w1 w2 :
  same_observations w1 w2 ->
  snd (makeEmeliaRequest transport url options w1)
    = snd (makeEmeliaRequest transport url options w2) /\
  same_observations (fst (makeEmeliaRequest transport url options w1))
                    (fst (makeEmeliaRequest transport url options w2)).
Proof.
  intros H. destruct (getEmeliaApiKey w1) as [k|] eqn:E.
  - rewrite (same_observations_keyed w1 w2 k H E).
    split; [reflexivity|apply same_observations_refl].
  - assert (E2 : getEmeliaApiKey w2 = None) by (destruct H as [<- _]; exact E).
    rewrite !makeEmeliaRequest_unkeyed by assumption. simpl.
    auto with emelia.
Qed.

Lemma call_tool_same_observations c w1 w2 :
  same_observations w1 w2 ->
  snd (call_tool transport after_guard c w1)
    = snd (call_tool transport after_guard c w2) /\
  same_observations (fst (call_tool transport after_guard c w1))
                    (fst (call_tool transport after_guard c w2)).
Proof.
  intros H. destruct (getEmeliaApiKey w1) as [k|] eqn:E.
  - rewrite (same_observations_keyed w1 w2 k H E).
    split; [reflexivity|apply same_observations_refl].
  - assert (E2 : getEmeliaApiKey w2 = None) by (destruct H as [<- _]; exact E).
    destruct c as [api_key| |status|name|t args]; simpl.
    + auto with emelia.
    + auto with emelia.
    + unfold get_campaigns_handler. rewrite E, E2. simpl. auto.
    + unfold create_email_campaign_handler. rewrite E, E2. simpl. auto.
    + unfold request_tool_handler. rewrite E, E2. simpl. auto.
Qed.

Lemma serve_same_observations calls w1 w2 :
  same_observations w1 w2 ->
  snd (serve transport after_guard calls w1)
    = snd (serve transport after_guard calls w2) /\
  same_observations (fst (serve transport after_guard calls w1))
                    (fst (serve transport after_guard calls w2)).
Proof.
  revert w1 w2. induction calls as [|c rest IH]; intros w1 w2 H.
  - simpl. auto.
  - simpl. destruct (call_tool_same_observations c w1 w2 H) as [Ho Hw].
    destruct (call_tool transport after_guard c w1) as [w1' o1].
    destruct (call_tool transport after_guard c w2) as [w2' o2].
    simpl in Ho, Hw. subst o2.
    destruct (IH w1' w2' Hw) as [Hos Hws].
    destruct (serve transport after_guard rest w1') as [w1'' os1].
    destruct (serve transport after_guard rest w2') as [w2'' os2].
    simpl in *. subst os2. auto.
Qed.

(** With a credential the guard of a request tool lets the call through to
    the rest of its handler. *)
Lemma request_tool_handler_keyed t args w k :
  getEmeliaApiKey w = Some k ->
  call_tool transport after_guard (request_tool t args) w = after_guard t args w.
Proof.
  intros Hk. simpl. unfold request_tool_handler. rewrite Hk.
  by destruct (getEmeliaApiKey_Some w k Hk) as [_ ->].
Qed.

End Indistinguishable.

(** ** Properties of the credential holder and the dispatcher *)

(** C1. While no credential is set, a dispatch hands nothing to the
    transport and returns the absent result ([null]) at once; all it does is
    write its diagnostic. *)
Theorem dispatch_without_credential (transport : Transport) (url : string)
    (options : option RequestInit) (w : World) :
  getEmeliaApiKey w = None ->
  makeEmeliaRequest transport url options w
    = (logged no_key_diagnostic w, Returns JNull) /\
  network (fst (makeEmeliaRequest transport url options w)) = network w.
Proof.
  intros H. rewrite (makeEmeliaRequest_unkeyed transport url options w H).
  split; reflexivity.
Qed.

(** C2, as the code has it.  [setEmeliaApiKey] stores any string in place of
    whatever the cell held, unchecked; [getEmeliaApiKey] then returns exactly
    that token when it is not the empty string and the absent marker when it
    is; whatever the state, it returns the stored token or the absent
    marker. *)
Theorem set_then_get (token : string) (w : World) :
  userApiKey (setEmeliaApiKey token w) = Some token /\
  getEmeliaApiKey (setEmeliaApiKey token w)
    = (if String.eqb token EmptyString then None else Some token) /\
  (getEmeliaApiKey w = userApiKey w \/ getEmeliaApiKey w = None).
Proof.
  split; [reflexivity|]. split; [apply getEmeliaApiKey_set|].
  unfold getEmeliaApiKey. destruct (truthy_str (userApiKey w)); auto.
Qed.

(** C3. After a token is set and cleared again the world is the one in
    which the cell was never set (same console, same calls so far), so a
    dispatch does there exactly what it does without a credential: it
    returns the absent result and the transport is not called. *)
Theorem set_clear_dispatch (transport : Transport) (X : string) (url : string)
    (options : option RequestInit) (w : World) :
  clearEmeliaApiKey (setEmeliaApiKey X w)
    = {| userApiKey := None; console := console w; network := network w |} /\
  makeEmeliaRequest transport url options (clearEmeliaApiKey (setEmeliaApiKey X w))
    = makeEmeliaRequest transport url options
        {| userApiKey := None; console := console w; network := network w |} /\
  snd (makeEmeliaRequest transport url options (clearEmeliaApiKey (setEmeliaApiKey X w)))
    = Returns JNull /\
  network (fst (makeEmeliaRequest transport url options
                  (clearEmeliaApiKey (setEmeliaApiKey X w))))
    = network w.
Proof.
  rewrite clear_set.
  rewrite (makeEmeliaRequest_unkeyed transport url options (clearEmeliaApiKey w))
    by apply getEmeliaApiKey_clear.
  repeat split.
Qed.

(** C5. With a credential set, a response whose status is outside 200..299
    makes the dispatcher return the absent result whatever the body holds,
    and so does a response with a success status whose body is not valid
    JSON.  Either way the transport was called exactly once, and nothing in
    the result tells one failing status from another. *)
Theorem failed_response_is_absent (transport : Transport) (url : string)
    (options : option RequestInit) (w : World) (k : string) (r : Response) :
  getEmeliaApiKey w = Some k ->
  transport (network w) url (request_options (fixed_headers (Some k)) options)
    = Resolved r ->
  ~ (200 <= status r <= 299)%N \/ json r = None ->
  snd (makeEmeliaRequest transport url options w) = Returns JNull /\
  network (fst (makeEmeliaRequest transport url options w))
    = (network w ++ [(url, request_options (fixed_headers (Some k)) options)])%list.
Proof.
  intros Hk Ht Hr.
  rewrite (makeEmeliaRequest_keyed transport url options w k Hk). cbn zeta.
  rewrite Ht.
  destruct (ok r) eqn:Hok.
  - destruct Hr as [Hs|Hj].
    + exfalso. apply Hs. unfold ok in Hok.
      apply andb_true_iff in Hok as [H1 H2].
      apply N.leb_le in H1, H2. split; assumption.
    + rewrite Hj. split; reflexivity.
  - split; reflexivity.
Qed.

(** C6. Whatever the URL, the options, the state of the credential and the
    way the transport settles (rejection, any status, any body), the
    dispatcher returns; it never throws.  What it returns is the absent
    result or the parsed body of a response with a success status. *)
Theorem dispatcher_never_throws (transport : Transport) (url : string)
    (options : option RequestInit) (w : World) :
  exists (w' : World) (v : JSON),
    makeEmeliaRequest transport url options w = (w', Returns v) /\
    (v = JNull \/
     exists r, ok r = true /\ json r = Some v /\
               transport (network w) url
                 (request_options (fixed_headers (getEmeliaApiKey w)) options)
                 = Resolved r).
Proof.
  destruct (getEmeliaApiKey w) as [k|] eqn:Hk.
  - rewrite (makeEmeliaRequest_keyed transport url options w k Hk). cbn zeta.
    destruct (transport _ url _) as [e|r] eqn:Ht; [eauto|].
    destruct (ok r) eqn:Hok; [|eauto].
    destruct (json r) as [v|] eqn:Hj; [|eauto].
    eexists _, v. split; [reflexivity|]. right. exists r. auto.
  - rewrite (makeEmeliaRequest_unkeyed transport url options w Hk). eauto.
Qed.

(** C9. Setting the same token a second time changes nothing: the world is
    the one the first call left, so a dispatch then runs the same, with the
    same headers on the outbound request. *)
Theorem set_twice (transport : Transport) (X : string) (url : string)
    (options : option RequestInit) (w : World) :
  setEmeliaApiKey X (setEmeliaApiKey X w) = setEmeliaApiKey X w /\
  makeEmeliaRequest transport url options (setEmeliaApiKey X (setEmeliaApiKey X w))
    = makeEmeliaRequest transport url options (setEmeliaApiKey X w) /\
  last_headers (fst (makeEmeliaRequest transport url options
                       (setEmeliaApiKey X (setEmeliaApiKey X w))))
    = last_headers (fst (makeEmeliaRequest transport url options
                           (setEmeliaApiKey X w))).
Proof.
  rewrite set_set. repeat split.
Qed.

(** X28. With a credential set and the caller's headers absent or given as
    a plain name-to-value object, the header object handed to the transport
    is the object spread of the fixed headers (client identifier, JSON
    accept, bearer authorization built from the credential, JSON content
    type) and the caller's: a property whose name the caller supplies holds
    the caller's value, every other property its fixed value.  Names are
    compared as property names, exactly: a caller's name that differs from a
    fixed one only in case is a further property beside it. *)
Theorem plain_headers_override (transport : Transport) (url : string)
    (options : option RequestInit) (w : World) (k : string)
    (fields : gmap string string) :
  getEmeliaApiKey w = Some k ->
  plain_headers options = Some fields ->
  fixed_headers (Some k)
    = {[ "User-Agent" := JStr "emelia-mcp/1.0";
         "Accept" := JStr "application/json";
         "Authorization" := JStr ("Bearer " +:+ k);
         "Content-Type" := JStr "application/json" ]} /\
  network (fst (makeEmeliaRequest transport url options w))
    = (network w ++ [(url, request_options (fixed_headers (Some k)) options)])%list /\
  forall name : string,
    last_headers (fst (makeEmeliaRequest transport url options w)) !! name
      = match fields !! name with
        | Some v => Some (JStr v)
        | None => fixed_headers (Some k) !! name
        end.
Proof.
  intros Hk Hp. split; [reflexivity|].
  assert (Hn : network (fst (makeEmeliaRequest transport url options w))
    = (network w ++ [(url, request_options (fixed_headers (Some k)) options)])%list).
  { rewrite (makeEmeliaRequest_keyed transport url options w k Hk). cbn zeta.
    destruct (transport _ url _) as [e|r]; [reflexivity|].
    destruct (ok r); [|reflexivity]. destruct (json r); reflexivity. }
  split; [exact Hn|]. intros name.
  unfold last_headers. rewrite Hn, last_snoc. simpl. unfold spread.
  assert (Hc : caller_headers options = JStr <$> fields).
  { unfold plain_headers in Hp. unfold caller_headers.
    destruct options as [o|].
    - destruct (headers o) as [[f|p|e]|]; inversion Hp; subst;
        [reflexivity|by rewrite fmap_empty].
    - inversion Hp; subst. by rewrite fmap_empty. }
  rewrite Hc, lookup_union, lookup_fmap.
  destruct (fields !! name) as [v|]; simpl.
  - by destruct (fixed_headers (Some k) !! name).
  - by destruct (fixed_headers (Some k) !! name).
Qed.

(** C7. With a credential set and a transport that answers 200 with the body
    [{"success": true, "campaigns": []}], the dispatcher returns that very
    object, and the [get-campaigns] handler answers with the text
    "No active campaigns". *)
Theorem empty_campaigns_rendering (transport : Transport) (url : string)
    (options : option RequestInit) (status : option string) (w : World)
    (k : string) :
  getEmeliaApiKey w = Some k ->
  (forall received u ro, transport received u ro
     = Resolved {| status := 200; json := Some empty_campaigns_body |}) ->
  snd (makeEmeliaRequest transport url options w) = Returns empty_campaigns_body /\
  snd (get_campaigns_handler transport status w)
    = Returns (text_result "No active campaigns").
Proof.
  intros Hk Ht. split.
  - rewrite (makeEmeliaRequest_keyed transport url options w k Hk). cbn zeta.
    rewrite Ht. reflexivity.
  - unfold get_campaigns_handler. rewrite Hk.
    destruct (getEmeliaApiKey_Some w k Hk) as [_ ->]. cbn [negb].
    unfold mbind, Async_bind, async_bind.
    rewrite (makeEmeliaRequest_keyed transport _ None w k Hk). cbn zeta.
    rewrite Ht. reflexivity.
Qed.

(** C8. Every handler that goes on to call the dispatcher opens with its own
    test of the credential, the same test the dispatcher makes: while no
    credential is set the handler answers with its authentication-required
    text and leaves the world as it found it, so nothing was handed to the
    transport and the dispatcher, which would have answered absent, was not
    entered. *)
Theorem handlers_require_credential (transport : Transport)
    (after_guard : RequestTool -> JSON -> Async ToolResult)
    (c : ToolCall) (w : World) :
  performs_request c = true ->
  getEmeliaApiKey w = None ->
  call_tool transport after_guard c w
    = (w, Returns (text_result AUTHENTICATION_REQUIRED)) /\
  forall url options,
    makeEmeliaRequest transport url options w
      = (logged no_key_diagnostic w, Returns JNull).
Proof.
  intros Hc Hk. split.
  - destruct c as [api_key| |status|name|t args]; simpl in Hc; try discriminate;
      simpl.
    + unfold get_campaigns_handler. by rewrite Hk.
    + unfold create_email_campaign_handler. by rewrite Hk.
    + unfold request_tool_handler. by rewrite Hk.
  - intros url options. by apply makeEmeliaRequest_unkeyed.
Qed.

(** C10. Storing the empty string reads like clearing.  After
    [setEmeliaApiKey] of the empty string [getEmeliaApiKey] returns the
    absent marker, as it does after [clearEmeliaApiKey]; every dispatch of
    any series made then returns the absent result and the transport is
    never called; and no series of dispatches or of tool calls tells the two
    worlds apart. *)
Theorem empty_token_reads_cleared (transport : Transport)
    (after_guard : RequestTool -> JSON -> Async ToolResult) (w : World) :
  getEmeliaApiKey (setEmeliaApiKey EmptyString w) = None /\
  getEmeliaApiKey (clearEmeliaApiKey w) = None /\
  (forall url options,
     makeEmeliaRequest transport url options (setEmeliaApiKey EmptyString w)
       = (logged no_key_diagnostic (setEmeliaApiKey EmptyString w), Returns JNull)) /\
  (forall calls,
     snd (dispatch_each transport calls (setEmeliaApiKey EmptyString w))
       = map (fun _ => Returns JNull) calls /\
     network (fst (dispatch_each transport calls (setEmeliaApiKey EmptyString w)))
       = network w /\
     snd (dispatch_each transport calls (setEmeliaApiKey EmptyString w))
       = snd (dispatch_each transport calls (clearEmeliaApiKey w))) /\
  (forall calls,
     snd (serve transport after_guard calls (setEmeliaApiKey EmptyString w))
       = snd (serve transport after_guard calls (clearEmeliaApiKey w)) /\
     same_observations
       (fst (serve transport after_guard calls (setEmeliaApiKey EmptyString w)))
       (fst (serve transport after_guard calls (clearEmeliaApiKey w)))).
Proof.
  assert (Hs : getEmeliaApiKey (setEmeliaApiKey EmptyString w) = None)
    by reflexivity.
  assert (Hc : getEmeliaApiKey (clearEmeliaApiKey w) = None) by reflexivity.
  split; [exact Hs|]. split; [exact Hc|]. split; [|split].
  - intros url options. by apply makeEmeliaRequest_unkeyed.
  - intros calls.
    destruct (dispatch_each_unkeyed transport calls _ Hs) as (E1 & E2 & _).
    destruct (dispatch_each_unkeyed transport calls _ Hc) as (F1 & _ & _).
    rewrite E1, E2, F1. auto.
  - intros calls. apply serve_same_observations.
    repeat split.
Qed.

(** ** Where the stated properties stop *)

(** C2 as stated fails at the empty token: once it is stored,
    [getEmeliaApiKey] returns the absent marker, not the token. *)
Lemma empty_token_does_not_read_back :
  userApiKey (setEmeliaApiKey EmptyString startup) = Some EmptyString /\
  getEmeliaApiKey (setEmeliaApiKey EmptyString startup) = None /\
  getEmeliaApiKey (setEmeliaApiKey EmptyString startup) <> Some EmptyString.
Proof. repeat split. discriminate. Qed.

(** C4.  The merge at a [Content-Type] override supplied as an array of
    pairs, a form [RequestInit] admits: the spread copies the array's index
    key, so the request holds a header named [0], the fixed [Content-Type]
    stays, and the caller's value is not the one sent. *)
Lemma pair_list_override_is_not_applied :
  In ("Content-Type", "text/plain")
     (header_entries (HeadersPairs [["Content-Type"; "text/plain"]])) /\
  last_headers (fst (makeEmeliaRequest unreachable campaigns_url
                       pair_list_override keyed_world)) !! "Content-Type"
    = Some (JStr "application/json") /\
  last_headers (fst (makeEmeliaRequest unreachable campaigns_url
                       pair_list_override keyed_world)) !! "0"
    = Some (JArr [JStr "Content-Type"; JStr "text/plain"]) /\
  last_headers (fst (makeEmeliaRequest unreachable campaigns_url
                       pair_list_override keyed_world)) !! "Content-Type"
    <> Some (JStr "text/plain").
Proof.
  split; [left; reflexivity|].
  split; [vm_compute; reflexivity|].
  split; [vm_compute; reflexivity|].
  vm_compute. discriminate.
Qed.

(** With a [Headers] instance, which has nothing for the spread to copy,
    the caller's headers are dropped. *)
Example instance_override_is_not_applied :
  In ("Content-Type", "text/plain")
     (header_entries (HeadersInstance [("Content-Type", "text/plain")])) /\
  last_headers (fst (makeEmeliaRequest unreachable campaigns_url
                       instance_override keyed_world))
    = fixed_headers (Some "secret").
Proof. split; [left; reflexivity|]. vm_compute. reflexivity. Qed.

(** With a plain object whose name differs in case, both properties reach
    the transport. *)
Example lowercase_override_is_added_beside :
  last_headers (fst (makeEmeliaRequest unreachable campaigns_url
                       lowercase_override keyed_world)) !! "Content-Type"
    = Some (JStr "application/json") /\
  last_headers (fst (makeEmeliaRequest unreachable campaigns_url
                       lowercase_override keyed_world)) !! "content-type"
    = Some (JStr "text/plain").
Proof. split; vm_compute; reflexivity. Qed.

(** ** Concrete runs *)

Lemma dispatch_without_credential_at_startup :
  getEmeliaApiKey startup = None /\
  (makeEmeliaRequest unreachable campaigns_url None startup
     = (logged no_key_diagnostic startup, Returns JNull) /\
   network (fst (makeEmeliaRequest unreachable campaigns_url None startup))
     = network startup).
Proof.
  split; [reflexivity|].
  apply (dispatch_without_credential unreachable campaigns_url None startup).
  reflexivity.
Defined.

(** At startup, setting and clearing leaves the startup world. *)
Example set_clear_at_startup :
  clearEmeliaApiKey (setEmeliaApiKey "secret" startup) = startup /\
  makeEmeliaRequest unreachable campaigns_url None
      (clearEmeliaApiKey (setEmeliaApiKey "secret" startup))
    = (logged no_key_diagnostic startup, Returns JNull).
Proof. split; reflexivity. Qed.

Lemma plain_override_is_applied :
  getEmeliaApiKey keyed_world = Some "secret" /\
  plain_headers plain_override = Some {[ "Content-Type" := "text/plain" ]} /\
  last_headers (fst (makeEmeliaRequest unreachable campaigns_url
                       plain_override keyed_world)) !! "Content-Type"
    = Some (JStr "text/plain") /\
  last_headers (fst (makeEmeliaRequest unreachable campaigns_url
                       plain_override keyed_world)) !! "Authorization"
    = Some (JStr "Bearer secret").
Proof.
  split; [reflexivity|]. split; [reflexivity|].
  destruct (plain_headers_override unreachable campaigns_url plain_override
              keyed_world "secret" {[ "Content-Type" := "text/plain" ]}
              eq_refl eq_refl) as (_ & _ & H).
  split; rewrite H; reflexivity.
Defined.

Lemma not_found_is_absent :
  getEmeliaApiKey keyed_world = Some "secret" /\
  respond_with {| status := 404; json := Some empty_campaigns_body |}
      (network keyed_world) campaigns_url
      (request_options (fixed_headers (Some "secret")) None)
    = Resolved {| status := 404; json := Some empty_campaigns_body |} /\
  (~ (200 <= 404 <= 299)%N \/ Some empty_campaigns_body = None) /\
  snd (makeEmeliaRequest
         (respond_with {| status := 404; json := Some empty_campaigns_body |})
         campaigns_url None keyed_world)
    = Returns JNull /\
  network (fst (makeEmeliaRequest
                  (respond_with {| status := 404; json := Some empty_campaigns_body |})
                  campaigns_url None keyed_world))
    = (network keyed_world
         ++ [(campaigns_url, request_options (fixed_headers (Some "secret")) None)])%list.
Proof.
  split; [reflexivity|]. split; [reflexivity|].
  split; [left; intros [_ H]; exact (H eq_refl)|].
  apply (failed_response_is_absent
           (respond_with {| status := 404; json := Some empty_campaigns_body |})
           campaigns_url None keyed_world "secret"
           {| status := 404; json := Some empty_campaigns_body |}).
  - reflexivity.
  - reflexivity.
  - left. intros [_ H]. exact (H eq_refl).
Defined.

Lemma empty_campaigns_rendering_keyed :
  getEmeliaApiKey keyed_world = Some "secret" /\
  (forall received u ro,
     respond_with {| status := 200; json := Some empty_campaigns_body |}
       received u ro
       = Resolved {| status := 200; json := Some empty_campaigns_body |}) /\
  snd (makeEmeliaRequest
         (respond_with {| status := 200; json := Some empty_campaigns_body |})
         campaigns_url None keyed_world)
    = Returns empty_campaigns_body /\
  snd (get_campaigns_handler
         (respond_with {| status := 200; json := Some empty_campaigns_body |})
         (Some "RUNNING") keyed_world)
    = Returns (text_result "No active campaigns").
Proof.
  split; [reflexivity|]. split; [reflexivity|].
  apply (empty_campaigns_rendering
           (respond_with {| status := 200; json := Some empty_campaigns_body |})
           campaigns_url None (Some "RUNNING") keyed_world "secret").
  - reflexivity.
  - reflexivity.
Defined.

Lemma create_campaign_requires_credential :
  performs_request (create_email_campaign "Spring") = true /\
  getEmeliaApiKey startup = None /\
  call_tool unreachable (dispatch_and_render unreachable)
      (create_email_campaign "Spring") startup
    = (startup, Returns (text_result AUTHENTICATION_REQUIRED)) /\
  forall url options,
    makeEmeliaRequest unreachable url options startup
      = (logged no_key_diagnostic startup, Returns JNull).
Proof.
  split; [reflexivity|]. split; [reflexivity|].
  apply (handlers_require_credential unreachable (dispatch_and_render unreachable)
           (create_email_campaign "Spring") startup).
  - reflexivity.
  - reflexivity.
Defined.

(** A transport that fails to connect: one call, one diagnostic, absent. *)
Example rejected_fetch_is_absent :
  makeEmeliaRequest unreachable campaigns_url None keyed_world
    = (logged (request_error_diagnostic (JsError "TypeError" "fetch failed"))
         (called campaigns_url (request_options (fixed_headers (Some "secret")) None)
            keyed_world),
       Returns JNull).
Proof. reflexivity. Qed.

(** No second attempt is made after a failure, even where one would have
    been answered. *)
Example no_retry_after_failure :
  makeEmeliaRequest (fails_once {| status := 200; json := Some empty_campaigns_body |})
      campaigns_url None keyed_world
    = (logged (request_error_diagnostic (JsError "TypeError" "fetch failed"))
         (called campaigns_url (request_options (fixed_headers (Some "secret")) None)
            keyed_world),
       Returns JNull).
Proof. reflexivity. Qed.

(** A 200 whose body does not parse. *)
Example malformed_body_is_absent :
  makeEmeliaRequest (respond_with {| status := 200; json := None |})
      campaigns_url None keyed_world
    = (logged (request_error_diagnostic json_syntax_error)
         (called campaigns_url (request_options (fixed_headers (Some "secret")) None)
            keyed_world),
       Returns JNull).
Proof. reflexivity. Qed.

(** The status of a failing response only shows in the diagnostic. *)
Example server_error_diagnostic :
  console (fst (makeEmeliaRequest (respond_with {| status := 503; json := None |})
                  campaigns_url None keyed_world))
    = [request_error_diagnostic (JsError "Error" "HTTP error! status: 503")].
Proof. reflexivity. Qed.

(** [get-campaigns] with a status filter and one campaign in the answer. *)
Example one_campaign_listed :
  get_campaigns_handler
    (respond_with
       {| status := 200;
          json := Some (JObj [("success", JBool true);
                              ("campaigns",
                               JArr [JObj [("_id", JStr "65f0"); ("name", JStr "Spring")]])]) |})
    (Some "RUNNING") keyed_world
  = (called (campaigns_url +:+ "?status=RUNNING")
       (request_options (fixed_headers (Some "secret")) None) keyed_world,
     Returns (text_result
       ("Campaigns list:" +:+ LF +:+ LF +:+
        "Campaign ID: 65f0" +:+ LF +:+
        "Campaign Name: Spring" +:+ LF +:+
        "Campaign Status: -" +:+ LF +:+
        "Campaign Type: Email" +:+ LF +:+
        "---"))).
Proof. reflexivity. Qed.

(** The dispatcher returns an absent result; the handler renders it. *)
Example campaigns_failure_rendered :
  snd (get_campaigns_handler (respond_with {| status := 404; json := None |})
         None keyed_world)
    = Returns (text_result "Failed to retrieve campaigns data").
Proof. reflexivity. Qed.

(** [create-email-campaign] posts the quoted name. *)
Example create_campaign_request :
  network (fst (create_email_campaign_handler
                  (respond_with {| status := 200;
                                   json := Some (JObj [("success", JBool true)]) |})
                  "Spring" keyed_world))
    = [(campaigns_url,
        {| req_method := Some "POST";
           req_body := Some ("{" +:+ DQ +:+ "name" +:+ DQ +:+ ":"
                                 +:+ DQ +:+ "Spring" +:+ DQ +:+ "}");
           req_headers := fixed_headers (Some "secret") |})].
Proof. vm_compute. reflexivity. Qed.

(** Authenticating with the empty string answers with the success text, and
    the next request tool still asks for authentication. *)
Example authenticate_with_empty_key :
  snd (serve unreachable (dispatch_and_render unreachable)
         [authenticate EmptyString; get_campaigns None] startup)
    = [Returns (text_result
         "Successfully authenticated with Emelia. Your API key has been securely stored for this session.");
       Returns (text_result AUTHENTICATION_REQUIRED)].
Proof. reflexivity. Qed.

(** ** Further properties of the dispatcher *)

Section DispatcherFacts.

Variable transport : Transport.

(** The dispatcher always returns (the fact the handlers' proofs rest on). *)
Lemma makeEmeliaRequest_settles url options w :
  exists w' v, makeEmeliaRequest transport url options w = (w', Returns v).
Proof.
  destruct (getEmeliaApiKey w) as [k|] eqn:Hk.
  - rewrite (makeEmeliaRequest_keyed transport url options w k Hk). cbn zeta.
    destruct (transport _ url _) as [e|r]; [eauto|].
    destruct (ok r); [|eauto]. destruct (json r); eauto.
  - rewrite (makeEmeliaRequest_unkeyed transport url options w Hk). eauto.
Qed.

Lemma ok_range r : ok r = true <-> (200 <= status r <= 299)%N.
Proof.
  unfold ok. rewrite andb_true_iff, !N.leb_le. tauto.
Qed.

Lemma request_options_no_headers k method body :
  request_options (fixed_headers (Some k))
      (Some {| method := method; body := body; headers := None |})
    = bearer_request k method body.
Proof.
  unfold request_options, bearer_request, caller_headers, spread. simpl.
  by rewrite (left_id_L ∅ (∪)).
Qed.

Lemma request_options_none k :
  request_options (fixed_headers (Some k)) None = bearer_request k None None.
Proof.
  unfold request_options, bearer_request, caller_headers, spread. simpl.
  by rewrite (left_id_L ∅ (∪)).
Qed.

End DispatcherFacts.

(** X1. With a credential set, a response with a status in 200..299 whose
    body parses is returned as it is: one call recorded, nothing written to
    the console, the credential untouched. *)
Theorem dispatch_success_returns_body (transport : Transport) (url : string)
    (options : option RequestInit) (w : World) (k : string) (r : Response)
    (v : JSON) :
  getEmeliaApiKey w = Some k ->
  transport (network w) url (request_options (fixed_headers (Some k)) options)
    = Resolved r ->
  (200 <= status r <= 299)%N ->
  json r = Some v ->
  makeEmeliaRequest transport url options w
    = (called url (request_options (fixed_headers (Some k)) options) w, Returns v).
Proof.
  intros Hk Ht Hs Hj.
  rewrite (makeEmeliaRequest_keyed transport url options w k Hk). cbn zeta.
  rewrite Ht. apply ok_range in Hs. rewrite Hs, Hj. reflexivity.
Qed.

(** X2. With a credential set, a [fetch] that rejects (no connection, DNS
    failure) is caught: the dispatcher returns the absent result after that
    one call and writes the rejection to the console. *)
Theorem dispatch_rejection_is_absent (transport : Transport) (url : string)
    (options : option RequestInit) (w : World) (k : string) (e : Thrown) :
  getEmeliaApiKey w = Some k ->
  transport (network w) url (request_options (fixed_headers (Some k)) options)
    = Rejected e ->
  makeEmeliaRequest transport url options w
    = (logged (request_error_diagnostic e)
         (called url (request_options (fixed_headers (Some k)) options) w),
       Returns JNull).
Proof.
  intros Hk Ht.
  rewrite (makeEmeliaRequest_keyed transport url options w k Hk). cbn zeta.
  rewrite Ht. reflexivity.
Qed.

(** X3. A dispatch never touches the credential and never rewrites what was
    logged or sent before: the console and the call log each grow by at most
    one entry, appended at the end. *)
Theorem dispatch_frame (transport : Transport) (url : string)
    (options : option RequestInit) (w : World) :
  userApiKey (fst (makeEmeliaRequest transport url options w)) = userApiKey w /\
  (exists lines,
     console (fst (makeEmeliaRequest transport url options w))
       = (console w ++ lines)%list /\ length lines <= 1) /\
  (exists calls,
     network (fst (makeEmeliaRequest transport url options w))
       = (network w ++ calls)%list /\ length calls <= 1).
Proof.
  destruct (getEmeliaApiKey w) as [k|] eqn:Hk.
  - rewrite (makeEmeliaRequest_keyed transport url options w k Hk). cbn zeta.
    destruct (transport _ url _) as [e|r];
      [|destruct (ok r); [destruct (json r)|]]; simpl;
      (split; [reflexivity|]);
      (split; [first [ by exists []; rewrite app_nil_r; simpl; auto
                     | by eexists [_]; simpl; auto ]
              | by eexists [_]; simpl; auto ]).
  - rewrite (makeEmeliaRequest_unkeyed transport url options w Hk). simpl.
    split; [reflexivity|].
    split; [by eexists [_]; simpl; auto|].
    exists []. rewrite app_nil_r. simpl. auto.
Qed.

(** X4. The transport is called exactly when the credential reads as
    present: the call log is unchanged if and only if [getEmeliaApiKey]
    returns the absent marker. *)
Theorem transport_called_iff_credential (transport : Transport) (url : string)
    (options : option RequestInit) (w : World) :
  network (fst (makeEmeliaRequest transport url options w)) = network w
  <-> getEmeliaApiKey w = None.
Proof.
  split.
  - destruct (getEmeliaApiKey w) as [k|] eqn:Hk; [|reflexivity].
    rewrite (makeEmeliaRequest_keyed transport url options w k Hk). cbn zeta.
    intros H. exfalso.
    assert (Hl : length (network w ++ [(url, request_options (fixed_headers (Some k)) options)])
                 = length (network w)).
    { destruct (transport _ url _) as [e|r];
        [|destruct (ok r); [destruct (json r)|]]; simpl in H; by rewrite H. }
    rewrite length_app in Hl. simpl in Hl. lia.
  - intros Hk. by rewrite (makeEmeliaRequest_unkeyed transport url options w Hk).
Qed.

(** X5. With a credential set, the URL, the method and the body the caller
    gave reach the transport unchanged, whatever headers came with them. *)
Theorem request_passes_through (transport : Transport) (url : string)
    (options : option RequestInit) (w : World) (k : string) :
  getEmeliaApiKey w = Some k ->
  exists ro,
    network (fst (makeEmeliaRequest transport url options w))
      = (network w ++ [(url, ro)])%list /\
    req_method ro = options ≫= method /\
    req_body ro = options ≫= body.
Proof.
  intros Hk. exists (request_options (fixed_headers (Some k)) options).
  rewrite (makeEmeliaRequest_keyed transport url options w k Hk). cbn zeta.
  split; [|split; reflexivity].
  destruct (transport _ url _) as [e|r]; [reflexivity|].
  destruct (ok r); [|reflexivity]. destruct (json r); reflexivity.
Qed.

(** X6. A diagnostic is written exactly when the attempt failed: the console
    is left as it was if and only if a credential was set and the transport
    answered with a success status and a body that parses.  In particular a
    parsed body of [null] comes back as the absent result with nothing
    logged. *)
Theorem silent_iff_success (transport : Transport) (url : string)
    (options : option RequestInit) (w : World) :
  console (fst (makeEmeliaRequest transport url options w)) = console w
  <-> exists k r v,
        getEmeliaApiKey w = Some k /\
        transport (network w) url (request_options (fixed_headers (Some k)) options)
          = Resolved r /\
        ok r = true /\ json r = Some v.
Proof.
  assert (Hgrow : forall l, (console w ++ [l])%list <> console w).
  { intros l H. apply (f_equal length) in H. rewrite length_app in H.
    simpl in H. lia. }
  split.
  - destruct (getEmeliaApiKey w) as [k|] eqn:Hk.
    + rewrite (makeEmeliaRequest_keyed transport url options w k Hk). cbn zeta.
      destruct (transport _ url _) as [e|r] eqn:Ht; simpl.
      * intros H. by apply Hgrow in H.
      * destruct (ok r) eqn:Hok; simpl.
        -- destruct (json r) as [v|] eqn:Hj; simpl.
           ++ intros _. exists k, r, v. auto.
           ++ intros H. by apply Hgrow in H.
        -- intros H. by apply Hgrow in H.
    + rewrite (makeEmeliaRequest_unkeyed transport url options w Hk). simpl.
      intros H. by apply Hgrow in H.
  - intros (k & r & v & Hk & Ht & Hok & Hj).
    rewrite (makeEmeliaRequest_keyed transport url options w k Hk). cbn zeta.
    rewrite Ht, Hok, Hj. reflexivity.
Qed.

(** X7. [getEmeliaApiKey] never returns the empty string: it returns a token
    exactly when the cell holds that token and the token is not empty, so
    testing its result for truthiness and for [null] are the same test. *)
Theorem credential_read_is_never_empty (w : World) (k : string) :
  getEmeliaApiKey w = Some k <-> userApiKey w = Some k /\ k <> EmptyString.
Proof.
  unfold getEmeliaApiKey. split.
  - destruct (userApiKey w) as [s|]; simpl; [|discriminate].
    destruct (String.eqb_spec s EmptyString) as [->|Hne]; simpl; [discriminate|].
    intros [= ->]. auto.
  - intros [-> Hne]. simpl.
    destruct (String.eqb_spec k EmptyString) as [->|_]; [contradiction|reflexivity].
Qed.

(** ** Further properties of [formatCampaign] and [get-campaigns] *)

Lemma get_truthy (v : JSON) (key : string) :
  truthy v = true -> get v key = Returns (member v key).
Proof. destruct v; simpl; try discriminate; reflexivity. Qed.

Lemma get_not_null (v : JSON) (key : string) :
  v <> JNull -> get v key = Returns (member v key).
Proof. destruct v; simpl; try reflexivity. contradiction. Qed.

Lemma to_string_shown (o : option JSON) :
  primitive_or_missing o = true ->
  exists s, to_string (or_else o (JStr "-")) = Returns s.
Proof.
  destruct o as [[|b|t|s| |]|]; simpl; try discriminate; intros _.
  - eauto.
  - destruct b; simpl; eauto.
  - destruct (String.eqb t "0"); simpl; eauto.
  - destruct (String.eqb s EmptyString); simpl; eauto.
  - eauto.
Qed.

Lemma to_string_shown_string (o : option string) :
  to_string (or_else (JStr <$> o) (JStr "-")) = Returns (shown_or_dash o).
Proof.
  destruct o as [x|]; simpl; [|reflexivity].
  destruct (String.eqb x EmptyString); reflexivity.
Qed.

Lemma formatCampaign_returns (c : JSON) :
  c <> JNull ->
  primitive_or_missing (member c "_id") = true ->
  primitive_or_missing (member c "name") = true ->
  primitive_or_missing (member c "status") = true ->
  exists s, formatCampaign c = Returns s.
Proof.
  intros H Hi Hn Hs. unfold formatCampaign.
  rewrite !(get_not_null c _ H).
  destruct (to_string_shown _ Hi) as [i Ei].
  destruct (to_string_shown _ Hn) as [n En].
  destruct (to_string_shown _ Hs) as [t Et].
  simpl. rewrite Ei. simpl. rewrite En. simpl. rewrite Et. simpl. eauto.
Qed.

(** The [length] of an array with an entry is not [0]. *)
Lemma length_not_zero (items : list JSON) :
  items <> [] ->
  is_zero (Some (JNum (pretty (length items)))) = false.
Proof.
  intros Hne. unfold is_zero. apply String.eqb_neq. intros H.
  assert (H0 : pretty (length items) = pretty 0) by exact H.
  apply (inj pretty) in H0. destruct items; [contradiction|discriminate].
Qed.

(** Mapping a callback that returns on every entry gives one result each,
    in order. *)
Lemma map_items_returns {A} (f : JSON -> Outcome A) (items : list JSON) :
  Forall (fun c => exists b, f c = Returns b) items ->
  exists blocks,
    map_items f items = Returns blocks /\
    Forall2 (fun c b => f c = Returns b) items blocks.
Proof.
  induction 1 as [|c rest [b Hb] _ (bs & Hbs & Hall)]; simpl.
  - exists []. split; [reflexivity|constructor].
  - rewrite Hb, Hbs. exists (b :: bs). split; [reflexivity|by constructor].
Qed.

(** Mapping stops at the first entry on which the callback throws. *)
Lemma map_items_throws {A} (f : JSON -> Outcome A) (before after : list JSON)
    (c : JSON) (e : Thrown) :
  Forall (fun x => exists b, f x = Returns b) before ->
  f c = Throws e ->
  map_items f (before ++ c :: after) = Throws e.
Proof.
  intros Hb Hc. induction Hb as [|x rest [b Hx] _ IH]; simpl.
  - by rewrite Hc.
  - by rewrite Hx, IH.
Qed.

(** X8. [formatCampaign] throws a [TypeError] when it is given [null], and
    returns a text for every other value whose [_id], [name] and [status]
    members are missing or hold a primitive ([null], a boolean, a number or
    a string). *)
Theorem formatCampaign_returns_on_primitives (campaign : JSON) :
  campaign <> JNull ->
  primitive_or_missing (member campaign "_id") = true ->
  primitive_or_missing (member campaign "name") = true ->
  primitive_or_missing (member campaign "status") = true ->
  (exists text, formatCampaign campaign = Returns text) /\
  (exists message, formatCampaign JNull = Throws (JsError "TypeError" message)).
Proof.
  intros H Hi Hn Hs. split.
  - by apply formatCampaign_returns.
  - eexists. reflexivity.
Qed.

(** X9. For a campaign object whose [_id], [name] and [status] members are
    strings or missing, [formatCampaign] returns five lines: each of the
    three shows the string, or a dash when the member is missing or empty;
    the type line always says Email. *)
Theorem formatCampaign_shows_or_dashes (fields : list (string * JSON))
    (id name status : option string) :
  assoc "_id" fields = JStr <$> id ->
  assoc "name" fields = JStr <$> name ->
  assoc "status" fields = JStr <$> status ->
  formatCampaign (JObj fields)
    = Returns (join LF [ "Campaign ID: " +:+ shown_or_dash id;
                         "Campaign Name: " +:+ shown_or_dash name;
                         "Campaign Status: " +:+ shown_or_dash status;
                         "Campaign Type: Email";
                         "---" ]).
Proof.
  intros Hi Hn Hs. unfold formatCampaign. simpl. rewrite Hi, Hn, Hs.
  by rewrite !to_string_shown_string.
Qed.

Section GetCampaignsFacts.

Variable transport : Transport.

Lemma makeEmeliaRequest_world_keyed url options w k :
  getEmeliaApiKey w = Some k ->
  network (fst (makeEmeliaRequest transport url options w))
    = (network w ++ [(url, request_options (fixed_headers (Some k)) options)])%list /\
  userApiKey (fst (makeEmeliaRequest transport url options w)) = userApiKey w.
Proof.
  intros Hk.
  rewrite (makeEmeliaRequest_keyed transport url options w k Hk). cbn zeta.
  destruct (transport _ url _) as [e|r]; [by split|].
  destruct (ok r); [|by split]. destruct (json r); by split.
Qed.

(** Once the dispatcher has returned, what is left of [get-campaigns] only
    computes on the value it got. *)
Lemma get_campaigns_handler_after status w k w' v :
  getEmeliaApiKey w = Some k ->
  makeEmeliaRequest transport (get_campaigns_url status) None w = (w', Returns v) ->
  get_campaigns_handler transport status w =
    (w',
     if negb (truthy v) then
       Returns (text_result "Failed to retrieve campaigns data")
     else
       match get (or_else (member v "campaigns") (JArr [])) "length" with
       | Throws e => Throws e
       | Returns len =>
           if is_zero len then Returns (text_result "No active campaigns")
           else
             match array_map formatCampaign
                     (or_else (member v "campaigns") (JArr [])) with
             | Returns blocks =>
                 Returns (text_result
                            ("Campaigns list:" +:+ LF +:+ LF +:+ join LF blocks))
             | Throws e => Throws e
             end
       end).
Proof.
  intros Hk HD. unfold get_campaigns_handler. rewrite Hk.
  destruct (getEmeliaApiKey_Some w k Hk) as [_ ->]. cbn [negb]. cbn zeta.
  unfold mbind, Async_bind, async_bind.
  unfold get_campaigns_url in HD. rewrite HD.
  destruct (truthy v) eqn:Hv; cbn [negb]; [|reflexivity].
  rewrite (get_truthy v "campaigns" Hv). unfold lift at 1.
  unfold lift at 1.
  destruct (get (or_else (member v "campaigns") (JArr [])) "length") as [len|e];
    [|reflexivity].
  destruct (is_zero len); [reflexivity|].
  unfold lift.
  destruct (array_map formatCampaign _); reflexivity.
Qed.

End GetCampaignsFacts.

(** X10. With a credential set, [get-campaigns] hands the transport exactly
    one request, whatever is answered and however the rendering ends: a
    request without method or body, with the fixed headers, to the campaigns
    URL, to which a non-empty status filter is appended as it is (not
    encoded). *)
Theorem get_campaigns_one_request (transport : Transport)
    (status : option string) (w : World) (k : string) :
  getEmeliaApiKey w = Some k ->
  network (fst (get_campaigns_handler transport status w))
    = (network w ++ [(get_campaigns_url status, bearer_request k None None)])%list /\
  userApiKey (fst (get_campaigns_handler transport status w)) = userApiKey w.
Proof.
  intros Hk.
  destruct (makeEmeliaRequest_settles transport (get_campaigns_url status) None w)
    as (w' & v & HD).
  rewrite (get_campaigns_handler_after transport status w k w' v Hk HD).
  destruct (makeEmeliaRequest_world_keyed transport (get_campaigns_url status)
              None w k Hk) as [Hn Hu].
  rewrite HD in Hn, Hu. simpl in *. by rewrite Hn, Hu, request_options_none.
Qed.

(** X11. Whenever the dispatcher's result is falsy, [get-campaigns] answers
    with its failure text: after any failed request, and also after a
    success whose body is [null], [false], [0] or the empty string. *)
Theorem get_campaigns_falsy_is_failure (transport : Transport)
    (status : option string) (w : World) (k : string) (v : JSON) :
  getEmeliaApiKey w = Some k ->
  snd (makeEmeliaRequest transport (get_campaigns_url status) None w) = Returns v ->
  truthy v = false ->
  snd (get_campaigns_handler transport status w)
    = Returns (text_result "Failed to retrieve campaigns data").
Proof.
  intros Hk HD Hv.
  destruct (makeEmeliaRequest transport (get_campaigns_url status) None w)
    as [w' o] eqn:E. simpl in HD. subst o.
  rewrite (get_campaigns_handler_after transport status w k w' v Hk E).
  simpl. by rewrite Hv.
Qed.

(** X12. Whenever the dispatcher's result is truthy and its [campaigns]
    member is missing, falsy or an empty array, [get-campaigns] answers
    "No active campaigns"; the [success] and [error] members of the result
    are not looked at. *)
Theorem get_campaigns_none_listed (transport : Transport)
    (status : option string) (w : World) (k : string) (v : JSON) :
  getEmeliaApiKey w = Some k ->
  snd (makeEmeliaRequest transport (get_campaigns_url status) None w) = Returns v ->
  truthy v = true ->
  truthy_opt (member v "campaigns") = false \/ member v "campaigns" = Some (JArr []) ->
  snd (get_campaigns_handler transport status w)
    = Returns (text_result "No active campaigns").
Proof.
  intros Hk HD Hv Hc.
  destruct (makeEmeliaRequest transport (get_campaigns_url status) None w)
    as [w' o] eqn:E. simpl in HD. subst o.
  rewrite (get_campaigns_handler_after transport status w k w' v Hk E).
  simpl. rewrite Hv. cbn [negb].
  assert (Hor : or_else (member v "campaigns") (JArr []) = JArr []).
  { destruct Hc as [Hc|Hc].
    - unfold or_else. destruct (member v "campaigns") as [c|]; [|reflexivity].
      simpl in Hc. by rewrite Hc.
    - by rewrite Hc. }
  by rewrite Hor.
Qed.

(** X13. Whenever the dispatcher's result is truthy, its [campaigns] member
    is a non-empty array and [formatCampaign] returns a block for every
    entry, [get-campaigns] returns the heading followed by those blocks, one
    per entry and in order, joined by line feeds. *)
Theorem get_campaigns_lists_each (transport : Transport)
    (status : option string) (w : World) (k : string) (v : JSON)
    (items : list JSON) :
  getEmeliaApiKey w = Some k ->
  snd (makeEmeliaRequest transport (get_campaigns_url status) None w) = Returns v ->
  truthy v = true ->
  member v "campaigns" = Some (JArr items) ->
  items <> [] ->
  Forall (fun c => exists block, formatCampaign c = Returns block) items ->
  exists blocks,
    Forall2 (fun c b => formatCampaign c = Returns b) items blocks /\
    snd (get_campaigns_handler transport status w)
      = Returns (text_result ("Campaigns list:" +:+ LF +:+ LF +:+ join LF blocks)).
Proof.
  intros Hk HD Hv Hc Hne Hall.
  destruct (makeEmeliaRequest transport (get_campaigns_url status) None w)
    as [w' o] eqn:E. simpl in HD. subst o.
  rewrite (get_campaigns_handler_after transport status w k w' v Hk E).
  destruct (map_items_returns formatCampaign items Hall) as (blocks & Hb & H2).
  exists blocks. split; [exact H2|].
  cbn [snd]. rewrite Hv, Hc. cbn [negb or_else truthy get].
  change (if String.eqb "length" "length" then ?a else ?b) with a.
  rewrite (length_not_zero items Hne).
  unfold array_map. by rewrite Hb.
Qed.

(** X14. Whenever the dispatcher's result is truthy and [formatCampaign]
    throws on an entry of its [campaigns] array, having returned on the
    entries before it, [get-campaigns] does not answer: what
    [formatCampaign] threw leaves the handler uncaught, after the request
    has been made. *)
Theorem get_campaigns_entry_throws (transport : Transport)
    (status : option string) (w : World) (k : string) (v : JSON)
    (before after : list JSON) (c : JSON) (e : Thrown) :
  getEmeliaApiKey w = Some k ->
  snd (makeEmeliaRequest transport (get_campaigns_url status) None w) = Returns v ->
  truthy v = true ->
  member v "campaigns" = Some (JArr (before ++ c :: after)) ->
  Forall (fun x => exists block, formatCampaign x = Returns block) before ->
  formatCampaign c = Throws e ->
  snd (get_campaigns_handler transport status w) = Throws e /\
  network (fst (get_campaigns_handler transport status w))
    = (network w ++ [(get_campaigns_url status, bearer_request k None None)])%list.
Proof.
  intros Hk HD Hv Hc Hb He.
  destruct (makeEmeliaRequest_world_keyed transport (get_campaigns_url status)
              None w k Hk) as [Hn _].
  destruct (makeEmeliaRequest transport (get_campaigns_url status) None w)
    as [w' o] eqn:E. simpl in HD. subst o.
  rewrite (get_campaigns_handler_after transport status w k w' v Hk E).
  cbn [fst snd] in *. rewrite Hv, Hc. cbn [negb or_else truthy get].
  change (if String.eqb "length" "length" then ?a else ?b) with a.
  rewrite (length_not_zero (before ++ c :: after)) by (by destruct before).
  unfold array_map.
  rewrite (map_items_throws formatCampaign before after c e Hb He).
  split; [reflexivity|]. by rewrite Hn, request_options_none.
Qed.

(** X27. A campaign whose [_id] is an object with a [toString] member of
    its own cannot be printed: [formatCampaign] throws the conversion
    [TypeError] instead of falling back to a dash. *)
Theorem formatCampaign_unprintable_id (fields inner : list (string * JSON))
    (x : JSON) :
  assoc "_id" fields = Some (JObj inner) ->
  assoc "toString" inner = Some x ->
  formatCampaign (JObj fields) = Throws not_convertible.
Proof.
  intros Hi Ht. unfold formatCampaign. simpl. rewrite Hi. simpl.
  by rewrite Ht.
Qed.

(** ** Further properties of the tools that submit an action *)

Lemma request_failed_spec (response : JSON) (w : World) :
  request_failed response w = (w, Returns (negb (reports_success response))).
Proof.
  unfold request_failed, reports_success.
  destruct (truthy response) eqn:Hv; cbn [negb andb]; [|reflexivity].
  unfold mbind, Async_bind, async_bind.
  by rewrite (get_truthy response "success" Hv).
Qed.

Lemma reports_success_truthy (response : JSON) :
  reports_success response = true -> truthy response = true.
Proof. unfold reports_success. by intros [? _]%andb_true_iff. Qed.

Ltac enter_handler Hk :=
  rewrite Hk;
  rewrite (proj2 (getEmeliaApiKey_Some _ _ Hk));
  cbn [negb]; cbn zeta;
  unfold mbind, Async_bind, async_bind.

Ltac after_dispatch transport w w' v HD :=
  match goal with
  | |- context [makeEmeliaRequest transport ?u ?o w] =>
      destruct (makeEmeliaRequest_settles transport u o w) as (w' & v & HD);
      rewrite !HD
  end.

Ltac answer_by_success v :=
  rewrite request_failed_spec; cbn [fst snd value_of];
  let Hs := fresh "Hs" in
  destruct (reports_success v) eqn:Hs; cbn [negb];
  [ try rewrite (get_truthy v _ (reports_success_truthy v Hs));
    unfold lift; try reflexivity;
    destruct (to_string_opt _); reflexivity
  | reflexivity ].

(** Every action tool, once past its guard, is one dispatch followed by the
    choice between its two texts. *)
Lemma run_action_keyed (transport : Transport) (a : Action.t) (w : World)
    (k : string) :
  getEmeliaApiKey w = Some k ->
  run_action transport a w =
    (fst (makeEmeliaRequest transport (action_url a) (action_options a) w),
     if reports_success
          (value_of (snd (makeEmeliaRequest transport (action_url a)
                            (action_options a) w)))
     then answer_with
            (action_success_text a
               (value_of (snd (makeEmeliaRequest transport (action_url a)
                                 (action_options a) w))))
     else Returns (text_result (action_failure_text a))).
Proof.
  intros Hk.
  unfold action_options.
  destruct a; cbn [run_action action_url action_method action_payload
                   action_failure_text action_success_text].
  - unfold create_email_campaign_handler. enter_handler Hk.
    after_dispatch transport w w' v HD. cbn [fst snd value_of].
    unfold reports_success.
    destruct (truthy v) eqn:Hv; cbn [negb andb]; [|reflexivity].
    rewrite (get_truthy v "success" Hv). unfold lift. cbn iota beta.
    destruct (truthy_opt (member v "success")); reflexivity.
  - unfold verify_email_handler. enter_handler Hk.
    after_dispatch transport w w' v HD. answer_by_success v.
  - unfold create_linkedin_campaign_handler. enter_handler Hk.
    after_dispatch transport w w' v HD. answer_by_success v.
  - unfold remove_contact_from_linkedin_campaign_handler. enter_handler Hk.
    after_dispatch transport w w' v HD. answer_by_success v.
  - unfold update_linkedin_contact_field_handler. enter_handler Hk.
    after_dispatch transport w w' v HD. answer_by_success v.
  - unfold create_advanced_campaign_handler. enter_handler Hk.
    after_dispatch transport w w' v HD. answer_by_success v.
  - unfold add_to_blacklist_handler. enter_handler Hk.
    after_dispatch transport w w' v HD. answer_by_success v.
  - unfold remove_from_blacklist_handler. enter_handler Hk.
    after_dispatch transport w w' v HD. answer_by_success v.
  - unfold find_email_handler. enter_handler Hk.
    after_dispatch transport w w' v HD. answer_by_success v.
  - unfold find_phone_handler. enter_handler Hk.
    after_dispatch transport w w' v HD. answer_by_success v.
  - unfold enable_email_warmup_handler. enter_handler Hk.
    after_dispatch transport w w' v HD. answer_by_success v.
  - unfold disable_email_warmup_handler. enter_handler Hk.
    after_dispatch transport w w' v HD. answer_by_success v.
  - unfold update_contact_field_handler. enter_handler Hk.
    after_dispatch transport w w' v HD. answer_by_success v.
Qed.

Lemma reports_success_null : reports_success JNull = false.
Proof. reflexivity. Qed.

(** X15. With a credential set, the answer of an action tool is decided by
    the dispatcher's result alone.  Unless the result is truthy and has a
    truthy [success] member the tool returns its failure text.  Otherwise it
    returns its success text; the four tools whose text prints a member of
    the result ([jobId], [campaignId]) throw instead when that member cannot
    be converted to a string. *)
Theorem action_tool_answer (transport : Transport) (a : Action.t) (w : World)
    (k : string) (v : JSON) :
  getEmeliaApiKey w = Some k ->
  snd (makeEmeliaRequest transport (action_url a) (action_options a) w) = Returns v ->
  snd (run_action transport a w)
    = (if reports_success v
       then answer_with (action_success_text a v)
       else Returns (text_result (action_failure_text a))).
Proof.
  intros Hk HD. rewrite (run_action_keyed transport a w k Hk).
  cbn [snd]. by rewrite HD.
Qed.

(** X16. With a credential set, an action tool hands the transport exactly
    one request, whatever is answered: its URL, its method, the JSON text of
    the object built from its arguments as body, and the fixed headers with
    the bearer credential.  The credential is left as it was. *)
Theorem action_tool_one_request (transport : Transport) (a : Action.t)
    (w : World) (k : string) :
  getEmeliaApiKey w = Some k ->
  network (fst (run_action transport a w))
    = (network w
         ++ [(action_url a,
              bearer_request k (Some (action_method a))
                (Some (JSON_stringify (action_payload a))))])%list /\
  userApiKey (fst (run_action transport a w)) = userApiKey w.
Proof.
  intros Hk. rewrite (run_action_keyed transport a w k Hk). cbn [fst].
  destruct (makeEmeliaRequest_world_keyed transport (action_url a)
              (action_options a) w k Hk) as [Hn Hu].
  rewrite Hn, Hu. unfold action_options.
  by rewrite request_options_no_headers.
Qed.

(** X17. An action tool never reports success on its own account: with a
    credential set, unless the transport answers the tool's request with a
    success status and a body that parses to a truthy value with a truthy
    [success] member, the answer is the tool's failure text. *)
Theorem action_tool_fails_unless_accepted (transport : Transport)
    (a : Action.t) (w : World) (k : string) :
  getEmeliaApiKey w = Some k ->
  (forall r v,
     transport (network w) (action_url a)
         (bearer_request k (Some (action_method a))
            (Some (JSON_stringify (action_payload a))))
       = Resolved r ->
     ok r = true -> json r = Some v -> reports_success v = false) ->
  snd (run_action transport a w) = Returns (text_result (action_failure_text a)).
Proof.
  intros Hk Hno. rewrite (run_action_keyed transport a w k Hk). cbn [snd].
  rewrite (makeEmeliaRequest_keyed transport (action_url a) (action_options a)
             w k Hk). cbn zeta.
  unfold action_options at 1 2 3 4. rewrite request_options_no_headers.
  destruct (transport _ _ _) as [e|r] eqn:Ht; cbn [snd value_of];
    [by rewrite reports_success_null|].
  destruct (ok r) eqn:Hok; cbn [snd value_of];
    [|by rewrite reports_success_null].
  destruct (json r) as [v|] eqn:Hj; cbn [snd value_of];
    [|by rewrite reports_success_null].
  by rewrite (Hno r v eq_refl Hok Hj).
Qed.

(** X18. Without a credential every action tool answers with the
    authentication-required text and leaves the world as it found it: the
    guard comes before anything is built or sent. *)
Theorem action_tool_requires_credential (transport : Transport)
    (a : Action.t) (w : World) :
  getEmeliaApiKey w = None ->
  run_action transport a w = (w, Returns (text_result AUTHENTICATION_REQUIRED)).
Proof.
  intros Hk.
  destruct a; cbn [run_action];
    [ unfold create_email_campaign_handler
    | unfold verify_email_handler
    | unfold create_linkedin_campaign_handler
    | unfold remove_contact_from_linkedin_campaign_handler
    | unfold update_linkedin_contact_field_handler
    | unfold create_advanced_campaign_handler
    | unfold add_to_blacklist_handler
    | unfold remove_from_blacklist_handler
    | unfold find_email_handler
    | unfold find_phone_handler
    | unfold enable_email_warmup_handler
    | unfold disable_email_warmup_handler
    | unfold update_contact_field_handler ];
    by rewrite Hk.
Qed.

(** X19. [verify-email] prints whatever the [jobId] member of an accepted
    result is, without a fallback: when the member is missing the answer
    reads "Job ID: undefined". *)
Theorem verify_email_missing_job_id (transport : Transport) (email : string)
    (w : World) (k : string) (v : JSON) :
  getEmeliaApiKey w = Some k ->
  snd (makeEmeliaRequest transport (action_url (Action.verify_email email))
         (action_options (Action.verify_email email)) w) = Returns v ->
  reports_success v = true ->
  member v "jobId" = None ->
  snd (verify_email_handler transport email w)
    = Returns (text_result
        ("Email verification job started for " +:+ email
           +:+ ". Job ID: undefined" +:+ LF
           +:+ "Use the check-email-verification tool with this job ID to get the results.")).
Proof.
  intros Hk HD Hs Hj.
  change (verify_email_handler transport email w)
    with (run_action transport (Action.verify_email email) w).
  rewrite (run_action_keyed transport _ w k Hk). cbn [snd].
  rewrite HD. cbn [value_of]. rewrite Hs.
  cbn [action_success_text]. by rewrite Hj.
Qed.

(** ** Further properties of the two other lists *)

Section ListFacts.

Variable transport : Transport.

Lemma get_linkedin_campaigns_handler_after status w k w' v :
  getEmeliaApiKey w = Some k ->
  makeEmeliaRequest transport (get_linkedin_campaigns_url status) None w
    = (w', Returns v) ->
  get_linkedin_campaigns_handler transport status w =
    (w',
     if reports_success v then
       match get (or_else (member v "campaigns") (JArr [])) "length" with
       | Throws e => Throws e
       | Returns len =>
           if is_zero len then Returns (text_result "No LinkedIn campaigns found")
           else
             match array_map_of "campaigns" format_linkedin_campaign
                     (or_else (member v "campaigns") (JArr [])) with
             | Returns blocks =>
                 Returns (text_result
                            ("LinkedIn Campaigns:" +:+ LF +:+ LF +:+ join LF blocks))
             | Throws e => Throws e
             end
       end
     else Returns (text_result "Failed to retrieve LinkedIn campaigns")).
Proof.
  intros Hk HD. unfold get_linkedin_campaigns_handler. enter_handler Hk.
  unfold get_linkedin_campaigns_url in HD. rewrite HD.
  rewrite request_failed_spec.
  destruct (reports_success v) eqn:Hs; cbn [negb]; [|reflexivity].
  rewrite (get_truthy v "campaigns" (reports_success_truthy v Hs)).
  unfold lift at 1. unfold lift at 1.
  destruct (get (or_else (member v "campaigns") (JArr [])) "length") as [len|e];
    [|reflexivity].
  destruct (is_zero len); [reflexivity|].
  unfold lift. destruct (array_map_of _ _ _); reflexivity.
Qed.

Lemma get_email_providers_handler_after filter w k w' v :
  getEmeliaApiKey w = Some k ->
  makeEmeliaRequest transport (get_email_providers_url filter) None w
    = (w', Returns v) ->
  get_email_providers_handler transport filter w =
    (w',
     if reports_success v then
       match get (or_else (member v "providers") (JArr [])) "length" with
       | Throws e => Throws e
       | Returns len =>
           if is_zero len then Returns (text_result "No email providers found")
           else
             match array_map_of "providers" format_email_provider
                     (or_else (member v "providers") (JArr [])) with
             | Returns blocks =>
                 Returns (text_result
                            ("Email Providers:" +:+ LF +:+ LF +:+ join LF blocks))
             | Throws e => Throws e
             end
       end
     else Returns (text_result "Failed to retrieve email providers")).
Proof.
  intros Hk HD. unfold get_email_providers_handler. enter_handler Hk.
  assert (Eu : match filter with
               | Some f => if String.eqb f "disconnected"
                           then (EMELIA_REST_API +:+ "/email-providers")
                                  +:+ "?filter=disconnected"
                           else EMELIA_REST_API +:+ "/email-providers"
               | None => EMELIA_REST_API +:+ "/email-providers"
               end = get_email_providers_url filter).
  { unfold get_email_providers_url. destruct filter as [f|].
    - destruct (String.eqb_spec f "disconnected") as [->|Hne].
      + by rewrite bool_decide_eq_true_2.
      + rewrite bool_decide_eq_false_2; [reflexivity|]. by intros [= ->].
    - by rewrite bool_decide_eq_false_2. }
  rewrite Eu, HD. rewrite request_failed_spec.
  destruct (reports_success v) eqn:Hs; cbn [negb]; [|reflexivity].
  rewrite (get_truthy v "providers" (reports_success_truthy v Hs)).
  unfold lift at 1. unfold lift at 1.
  destruct (get (or_else (member v "providers") (JArr [])) "length") as [len|e];
    [|reflexivity].
  destruct (is_zero len); [reflexivity|].
  unfold lift. destruct (array_map_of _ _ _); reflexivity.
Qed.

End ListFacts.

(** X20. [get-linkedin-campaigns] answers with its failure text whenever the
    dispatcher's result is falsy or lacks a truthy [success] member, even if
    the result carries campaigns (where [get-campaigns] would list them). *)
Theorem get_linkedin_campaigns_requires_success (transport : Transport)
    (status : option string) (w : World) (k : string) (v : JSON) :
  getEmeliaApiKey w = Some k ->
  snd (makeEmeliaRequest transport (get_linkedin_campaigns_url status) None w)
    = Returns v ->
  reports_success v = false ->
  snd (get_linkedin_campaigns_handler transport status w)
    = Returns (text_result "Failed to retrieve LinkedIn campaigns").
Proof.
  intros Hk HD Hs.
  destruct (makeEmeliaRequest transport (get_linkedin_campaigns_url status) None w)
    as [w' o] eqn:E. simpl in HD. subst o.
  rewrite (get_linkedin_campaigns_handler_after transport status w k w' v Hk E).
  simpl. by rewrite Hs.
Qed.

(** X21. Whenever the result reports success, its [campaigns] member is a
    non-empty array and the rendering of every entry returns a block,
    [get-linkedin-campaigns] returns the heading followed by those blocks,
    one per entry and in order, joined by line feeds. *)
Theorem get_linkedin_campaigns_rendering (transport : Transport)
    (status : option string) (w : World) (k : string) (v : JSON)
    (items : list JSON) :
  getEmeliaApiKey w = Some k ->
  snd (makeEmeliaRequest transport (get_linkedin_campaigns_url status) None w)
    = Returns v ->
  reports_success v = true ->
  member v "campaigns" = Some (JArr items) ->
  items <> [] ->
  Forall (fun c => exists block, format_linkedin_campaign c = Returns block) items ->
  exists blocks,
    Forall2 (fun c b => format_linkedin_campaign c = Returns b) items blocks /\
    snd (get_linkedin_campaigns_handler transport status w)
      = Returns (text_result
                   ("LinkedIn Campaigns:" +:+ LF +:+ LF +:+ join LF blocks)).
Proof.
  intros Hk HD Hs Hc Hne Hall.
  destruct (makeEmeliaRequest transport (get_linkedin_campaigns_url status) None w)
    as [w' o] eqn:E. simpl in HD. subst o.
  rewrite (get_linkedin_campaigns_handler_after transport status w k w' v Hk E).
  cbn [snd]. rewrite Hs.
  destruct (map_items_returns format_linkedin_campaign items Hall)
    as (blocks & Hb & H2).
  exists blocks. split; [exact H2|].
  rewrite Hc. cbn [or_else truthy get].
  change (if String.eqb "length" "length" then ?a else ?b) with a.
  rewrite (length_not_zero items Hne).
  unfold array_map_of. by rewrite Hb.
Qed.

(** X26. Whenever the result reports success and its [campaigns] member is
    missing, falsy or an empty array, [get-linkedin-campaigns] answers
    "No LinkedIn campaigns found". *)
Theorem get_linkedin_campaigns_none_found (transport : Transport)
    (status : option string) (w : World) (k : string) (v : JSON) :
  getEmeliaApiKey w = Some k ->
  snd (makeEmeliaRequest transport (get_linkedin_campaigns_url status) None w)
    = Returns v ->
  reports_success v = true ->
  truthy_opt (member v "campaigns") = false \/ member v "campaigns" = Some (JArr []) ->
  snd (get_linkedin_campaigns_handler transport status w)
    = Returns (text_result "No LinkedIn campaigns found").
Proof.
  intros Hk HD Hs Hc.
  destruct (makeEmeliaRequest transport (get_linkedin_campaigns_url status) None w)
    as [w' o] eqn:E. simpl in HD. subst o.
  rewrite (get_linkedin_campaigns_handler_after transport status w k w' v Hk E).
  cbn [snd]. rewrite Hs.
  assert (Hor : or_else (member v "campaigns") (JArr []) = JArr []).
  { destruct Hc as [Hc|Hc].
    - unfold or_else. destruct (member v "campaigns") as [c|]; [|reflexivity].
      simpl in Hc. by rewrite Hc.
    - by rewrite Hc. }
  by rewrite Hor.
Qed.

(** X22. With a credential set, [get-email-providers] hands the transport
    exactly one request without method or body; the query
    [?filter=disconnected] is added only when the filter is exactly the
    string [disconnected], and any other filter value is dropped. *)
Theorem get_email_providers_one_request (transport : Transport)
    (filter : option string) (w : World) (k : string) :
  getEmeliaApiKey w = Some k ->
  network (fst (get_email_providers_handler transport filter w))
    = (network w ++ [(get_email_providers_url filter, bearer_request k None None)])%list /\
  get_email_providers_url (Some "disconnected")
    = EMELIA_REST_API +:+ "/email-providers?filter=disconnected" /\
  (filter <> Some "disconnected" ->
   get_email_providers_url filter = EMELIA_REST_API +:+ "/email-providers").
Proof.
  intros Hk. split; [|split].
  - destruct (makeEmeliaRequest_settles transport (get_email_providers_url filter)
                None w) as (w' & v & HD).
    rewrite (get_email_providers_handler_after transport filter w k w' v Hk HD).
    destruct (makeEmeliaRequest_world_keyed transport (get_email_providers_url filter)
                None w k Hk) as [Hn _].
    rewrite HD in Hn. simpl in *. by rewrite Hn, request_options_none.
  - reflexivity.
  - intros Hne. unfold get_email_providers_url.
    by rewrite bool_decide_eq_false_2.
Qed.

(** X23. For a provider object whose [senderName], [senderEmail] and
    [emailType] members are strings or missing, the block rendered by
    [get-email-providers] shows each string, or a dash when it is missing or
    empty, and says Disconnected exactly when the [disconnected] member is
    truthy. *)
Theorem format_email_provider_text (fields : list (string * JSON))
    (senderName senderEmail emailType : option string) :
  assoc "senderName" fields = JStr <$> senderName ->
  assoc "senderEmail" fields = JStr <$> senderEmail ->
  assoc "emailType" fields = JStr <$> emailType ->
  format_email_provider (JObj fields)
    = Returns ("Sender: " +:+ shown_or_dash senderName
               +:+ " <" +:+ shown_or_dash senderEmail +:+ ">" +:+ LF
               +:+ "Type: " +:+ shown_or_dash emailType +:+ LF
               +:+ "Status: "
               +:+ (if truthy_opt (assoc "disconnected" fields)
                    then "Disconnected" else "Connected")
               +:+ LF +:+ "---").
Proof.
  intros Hn He Ht. unfold format_email_provider. simpl. rewrite Hn, He, Ht.
  by rewrite !to_string_shown_string.
Qed.

(** ** The session, from one tool call to the next *)

Lemma get_campaigns_handler_network (transport : Transport)
    (status : option string) (w : World) (k : string) :
  getEmeliaApiKey w = Some k ->
  network (fst (get_campaigns_handler transport status w))
    = (network w ++ [(get_campaigns_url status, bearer_request k None None)])%list.
Proof.
  intros Hk.
  destruct (makeEmeliaRequest_settles transport (get_campaigns_url status) None w)
    as (w' & v & HD).
  rewrite (get_campaigns_handler_after transport status w k w' v Hk HD).
  destruct (makeEmeliaRequest_world_keyed transport (get_campaigns_url status)
              None w k Hk) as [Hn _].
  rewrite HD in Hn. simpl in *. by rewrite Hn, request_options_none.
Qed.

(** X24. After [logout] every tool that would call the dispatcher answers
    with the authentication-required text, whatever credential was held
    before, and nothing is sent. *)
Theorem logout_then_request_tool (transport : Transport)
    (after_guard : RequestTool -> JSON -> Async ToolResult)
    (c : ToolCall) (w : World) :
  performs_request c = true ->
  serve transport after_guard [logout; c] w
    = (clearEmeliaApiKey w,
       [Returns (text_result "Successfully logged out. Your API key has been cleared.");
        Returns (text_result AUTHENTICATION_REQUIRED)]).
Proof.
  intros Hc. cbn [serve call_tool]. unfold logout_handler.
  assert (Hk : getEmeliaApiKey (clearEmeliaApiKey w) = None) by reflexivity.
  destruct c as [api_key| |status|name|t args]; simpl in Hc; try discriminate;
    cbn [call_tool].
  - unfold get_campaigns_handler. by rewrite Hk.
  - unfold create_email_campaign_handler. by rewrite Hk.
  - unfold request_tool_handler. by rewrite Hk.
Qed.

(** X25. The credential used is the one authenticated last: after
    [authenticate] with one key and then with another, non-empty one, the
    request [get-campaigns] makes carries the bearer authorization of the
    second. *)
Theorem last_authenticate_wins (transport : Transport)
    (after_guard : RequestTool -> JSON -> Async ToolResult)
    (first second : string) (status : option string) (w : World) :
  second <> EmptyString ->
  network (fst (serve transport after_guard
                  [authenticate first; authenticate second; get_campaigns status] w))
    = (network w ++ [(get_campaigns_url status, bearer_request second None None)])%list /\
  req_headers (bearer_request second None None) !! "Authorization"
    = Some (JStr ("Bearer " +:+ second)).
Proof.
  intros Hne. split; [|reflexivity].
  cbn [serve call_tool]. unfold authenticate_handler at 1 2.
  rewrite set_set.
  assert (Hk : getEmeliaApiKey (setEmeliaApiKey second w) = Some second).
  { rewrite getEmeliaApiKey_set.
    by destruct (String.eqb_spec second EmptyString). }
  pose proof (get_campaigns_handler_network transport status
                (setEmeliaApiKey second w) second Hk) as Hn.
  destruct (get_campaigns_handler transport status (setEmeliaApiKey second w))
    as [w1 o1]. simpl in *. exact Hn.
Qed.

(** ** Concrete runs of the further properties *)

Lemma dispatch_success_returns_body_run :
  getEmeliaApiKey keyed_world = Some "secret" /\
  makeEmeliaRequest (answering accepted) campaigns_url None keyed_world
    = (called campaigns_url (request_options (fixed_headers (Some "secret")) None)
         keyed_world,
       Returns accepted).
Proof.
  split; [reflexivity|].
  apply (dispatch_success_returns_body (answering accepted) campaigns_url None
           keyed_world "secret" {| status := 200; json := Some accepted |} accepted).
  - reflexivity.
  - reflexivity.
  - simpl. lia.
  - reflexivity.
Defined.

Lemma dispatch_rejection_is_absent_run :
  getEmeliaApiKey keyed_world = Some "secret" /\
  makeEmeliaRequest unreachable campaigns_url None keyed_world
    = (logged (request_error_diagnostic (JsError "TypeError" "fetch failed"))
         (called campaigns_url (request_options (fixed_headers (Some "secret")) None)
            keyed_world),
       Returns JNull).
Proof.
  split; [reflexivity|].
  apply (dispatch_rejection_is_absent unreachable campaigns_url None keyed_world
           "secret" (JsError "TypeError" "fetch failed")).
  - reflexivity.
  - reflexivity.
Defined.

Lemma request_passes_through_run :
  getEmeliaApiKey keyed_world = Some "secret" /\
  exists ro,
    network (fst (makeEmeliaRequest unreachable campaigns_url
                    (Some {| method := Some "POST"; body := Some "{}";
                             headers := Some (HeadersPairs [["X-Trace"; "1"]]) |})
                    keyed_world))
      = (network keyed_world ++ [(campaigns_url, ro)])%list /\
    req_method ro = Some "POST" /\
    req_body ro = Some "{}".
Proof.
  split; [reflexivity|].
  apply (request_passes_through unreachable campaigns_url
           (Some {| method := Some "POST"; body := Some "{}";
                    headers := Some (HeadersPairs [["X-Trace"; "1"]]) |})
           keyed_world "secret").
  reflexivity.
Defined.

Lemma formatCampaign_returns_on_primitives_run :
  primitive_or_missing
    (member (JObj [("_id", JNum "1e+21"); ("name", JNull)]) "_id") = true /\
  (exists text,
     formatCampaign (JObj [("_id", JNum "1e+21"); ("name", JNull)]) = Returns text) /\
  (exists message, formatCampaign JNull = Throws (JsError "TypeError" message)).
Proof.
  split; [reflexivity|].
  apply (formatCampaign_returns_on_primitives
           (JObj [("_id", JNum "1e+21"); ("name", JNull)])).
  - discriminate.
  - reflexivity.
  - reflexivity.
  - reflexivity.
Defined.

Lemma formatCampaign_unprintable_id_run :
  formatCampaign odd_campaign = Throws not_convertible.
Proof.
  apply (formatCampaign_unprintable_id
           [("_id", JObj [("toString", JNum "1")]); ("name", JStr "Odd")]
           [("toString", JNum "1")] (JNum "1")).
  - reflexivity.
  - reflexivity.
Defined.

Lemma formatCampaign_shows_or_dashes_run :
  formatCampaign (JObj [("_id", JStr "65f0"); ("name", JStr EmptyString)])
    = Returns (join LF [ "Campaign ID: 65f0"; "Campaign Name: -";
                         "Campaign Status: -"; "Campaign Type: Email"; "---" ]).
Proof.
  apply (formatCampaign_shows_or_dashes
           [("_id", JStr "65f0"); ("name", JStr EmptyString)]
           (Some "65f0") (Some EmptyString) None).
  - reflexivity.
  - reflexivity.
  - reflexivity.
Defined.

Lemma get_campaigns_one_request_run :
  getEmeliaApiKey keyed_world = Some "secret" /\
  network (fst (get_campaigns_handler (answering campaigns_with_null)
                  (Some "a b&c") keyed_world))
    = (network keyed_world
         ++ [(get_campaigns_url (Some "a b&c"), bearer_request "secret" None None)])%list /\
  userApiKey (fst (get_campaigns_handler (answering campaigns_with_null)
                     (Some "a b&c") keyed_world))
    = userApiKey keyed_world.
Proof.
  split; [reflexivity|].
  apply (get_campaigns_one_request (answering campaigns_with_null)
           (Some "a b&c") keyed_world "secret").
  reflexivity.
Defined.

Lemma get_campaigns_falsy_is_failure_run :
  snd (makeEmeliaRequest (answering (JBool false)) (get_campaigns_url None) None
         keyed_world) = Returns (JBool false) /\
  snd (get_campaigns_handler (answering (JBool false)) None keyed_world)
    = Returns (text_result "Failed to retrieve campaigns data").
Proof.
  split; [reflexivity|].
  apply (get_campaigns_falsy_is_failure (answering (JBool false)) None
           keyed_world "secret" (JBool false)).
  - reflexivity.
  - reflexivity.
  - reflexivity.
Defined.

Lemma get_campaigns_none_listed_run :
  snd (makeEmeliaRequest (answering refused) (get_campaigns_url None) None
         keyed_world) = Returns refused /\
  snd (get_campaigns_handler (answering refused) None keyed_world)
    = Returns (text_result "No active campaigns").
Proof.
  split; [reflexivity|].
  apply (get_campaigns_none_listed (answering refused) None keyed_world
           "secret" refused).
  - reflexivity.
  - reflexivity.
  - reflexivity.
  - left. reflexivity.
Defined.

Lemma get_campaigns_lists_each_run :
  snd (makeEmeliaRequest (answering two_campaigns) (get_campaigns_url None) None
         keyed_world) = Returns two_campaigns /\
  exists blocks,
    Forall2 (fun c b => formatCampaign c = Returns b)
      [spring_campaign; JObj [("name", JStr "Autumn")]] blocks /\
    snd (get_campaigns_handler (answering two_campaigns) None keyed_world)
      = Returns (text_result ("Campaigns list:" +:+ LF +:+ LF +:+ join LF blocks)).
Proof.
  split; [reflexivity|].
  apply (get_campaigns_lists_each (answering two_campaigns) None keyed_world
           "secret" two_campaigns).
  - reflexivity.
  - reflexivity.
  - reflexivity.
  - reflexivity.
  - discriminate.
  - repeat constructor; eexists; reflexivity.
Defined.

Lemma get_campaigns_entry_throws_run :
  formatCampaign JNull
    = Throws (JsError "TypeError" "Cannot read properties of null (reading '_id')") /\
  snd (get_campaigns_handler (answering campaigns_with_null) None keyed_world)
    = Throws (JsError "TypeError" "Cannot read properties of null (reading '_id')") /\
  network (fst (get_campaigns_handler (answering campaigns_with_null) None
                  keyed_world))
    = (network keyed_world
         ++ [(get_campaigns_url None, bearer_request "secret" None None)])%list.
Proof.
  split; [reflexivity|].
  apply (get_campaigns_entry_throws (answering campaigns_with_null) None
           keyed_world "secret" campaigns_with_null [spring_campaign] [] JNull).
  - reflexivity.
  - reflexivity.
  - reflexivity.
  - reflexivity.
  - repeat constructor; eexists; reflexivity.
  - reflexivity.
Defined.

(** An entry that cannot be printed stops the listing the same way, before
    the entries after it are looked at. *)
Example get_campaigns_unprintable_entry :
  snd (get_campaigns_handler
         (answering (JObj [("campaigns", JArr [odd_campaign; JNull])]))
         None keyed_world)
    = Throws not_convertible.
Proof. reflexivity. Qed.

(** [verify-email] throws when the job id of an accepted result cannot be
    printed. *)
Example verify_email_unprintable_job_id :
  snd (verify_email_handler
         (answering (JObj [("success", JBool true);
                           ("jobId", JObj [("toString", JNull)])]))
         "ada@example.org" keyed_world)
    = Throws not_convertible.
Proof. reflexivity. Qed.

Lemma action_tool_answer_run :
  snd (makeEmeliaRequest (answering accepted)
         (action_url (Action.find_email "Ada Lovelace" "Analytical" None (Some "UK")))
         (action_options (Action.find_email "Ada Lovelace" "Analytical" None (Some "UK")))
         keyed_world) = Returns accepted /\
  snd (run_action (answering accepted)
         (Action.find_email "Ada Lovelace" "Analytical" None (Some "UK")) keyed_world)
    = Returns (text_result
        ("Email finder job started for Ada Lovelace at Analytical. Job ID: j-17"
           +:+ LF
           +:+ "Use the check-email-finder tool with this job ID to get the results.")).
Proof.
  split; [reflexivity|].
  apply (action_tool_answer (answering accepted)
           (Action.find_email "Ada Lovelace" "Analytical" None (Some "UK"))
           keyed_world "secret" accepted).
  - reflexivity.
  - reflexivity.
Defined.

Lemma action_tool_one_request_run :
  getEmeliaApiKey keyed_world = Some "secret" /\
  network (fst (run_action unreachable
                  (Action.remove_from_blacklist "spam.example") keyed_world))
    = (network keyed_world
         ++ [(EMELIA_REST_API +:+ "/emails/blacklists/contact",
              bearer_request "secret" (Some "DELETE")
                (Some (JSON_stringify (JObj [("email", JStr "spam.example")]))))])%list /\
  userApiKey (fst (run_action unreachable
                     (Action.remove_from_blacklist "spam.example") keyed_world))
    = userApiKey keyed_world.
Proof.
  split; [reflexivity|].
  apply (action_tool_one_request unreachable
           (Action.remove_from_blacklist "spam.example") keyed_world "secret").
  reflexivity.
Defined.

Lemma action_tool_fails_unless_accepted_run :
  getEmeliaApiKey keyed_world = Some "secret" /\
  snd (run_action (answering refused)
         (Action.enable_email_warmup "prov-1") keyed_world)
    = Returns (text_result "Failed to enable email warmup").
Proof.
  split; [reflexivity|].
  apply (action_tool_fails_unless_accepted (answering refused)
           (Action.enable_email_warmup "prov-1") keyed_world "secret").
  - reflexivity.
  - intros r v Hr _ Hj. vm_compute in Hr.
    injection Hr as <-. simpl in Hj. injection Hj as <-. reflexivity.
Defined.

Lemma action_tool_requires_credential_run :
  getEmeliaApiKey startup = None /\
  run_action (answering accepted)
      (Action.update_contact_field "c-1" "ada@example.org" "city" "London") startup
    = (startup, Returns (text_result AUTHENTICATION_REQUIRED)).
Proof.
  split; [reflexivity|].
  apply (action_tool_requires_credential (answering accepted)
           (Action.update_contact_field "c-1" "ada@example.org" "city" "London")
           startup).
  reflexivity.
Defined.

Lemma verify_email_missing_job_id_run :
  reports_success accepted_bare = true /\
  member accepted_bare "jobId" = None /\
  snd (verify_email_handler (answering accepted_bare) "ada@example.org" keyed_world)
    = Returns (text_result
        ("Email verification job started for ada@example.org. Job ID: undefined"
           +:+ LF
           +:+ "Use the check-email-verification tool with this job ID to get the results.")).
Proof.
  split; [reflexivity|]. split; [reflexivity|].
  apply (verify_email_missing_job_id (answering accepted_bare) "ada@example.org"
           keyed_world "secret" accepted_bare).
  - reflexivity.
  - reflexivity.
  - reflexivity.
  - reflexivity.
Defined.

Lemma get_linkedin_campaigns_requires_success_run :
  reports_success two_campaigns = false /\
  snd (get_linkedin_campaigns_handler (answering two_campaigns) None keyed_world)
    = Returns (text_result "Failed to retrieve LinkedIn campaigns").
Proof.
  split; [reflexivity|].
  apply (get_linkedin_campaigns_requires_success (answering two_campaigns) None
           keyed_world "secret" two_campaigns).
  - reflexivity.
  - reflexivity.
  - reflexivity.
Defined.

Lemma get_linkedin_campaigns_rendering_run :
  reports_success campaigns_with_account = true /\
  exists blocks,
    Forall2 (fun c b => format_linkedin_campaign c = Returns b)
      [JObj [("_id", JStr "li-1"); ("account", JStr "ada")]] blocks /\
    snd (get_linkedin_campaigns_handler (answering campaigns_with_account)
           (Some "RUNNING") keyed_world)
      = Returns (text_result
                   ("LinkedIn Campaigns:" +:+ LF +:+ LF +:+ join LF blocks)).
Proof.
  split; [reflexivity|].
  apply (get_linkedin_campaigns_rendering (answering campaigns_with_account)
           (Some "RUNNING") keyed_world "secret" campaigns_with_account).
  - reflexivity.
  - reflexivity.
  - reflexivity.
  - reflexivity.
  - discriminate.
  - repeat constructor; eexists; reflexivity.
Defined.

Lemma get_linkedin_campaigns_none_found_run :
  reports_success accepted = true /\
  snd (get_linkedin_campaigns_handler (answering accepted) (Some "RUNNING")
         keyed_world)
    = Returns (text_result "No LinkedIn campaigns found").
Proof.
  split; [reflexivity|].
  apply (get_linkedin_campaigns_none_found (answering accepted) (Some "RUNNING")
           keyed_world "secret" accepted).
  - reflexivity.
  - reflexivity.
  - reflexivity.
  - left. reflexivity.
Defined.

Lemma get_email_providers_one_request_run :
  getEmeliaApiKey keyed_world = Some "secret" /\
  network (fst (get_email_providers_handler unreachable (Some "Disconnected")
                  keyed_world))
    = (network keyed_world
         ++ [(EMELIA_REST_API +:+ "/email-providers",
              bearer_request "secret" None None)])%list.
Proof.
  split; [reflexivity|].
  destruct (get_email_providers_one_request unreachable (Some "Disconnected")
              keyed_world "secret" eq_refl) as (H & _ & _).
  exact H.
Defined.

Lemma format_email_provider_text_run :
  format_email_provider
      (JObj [("senderName", JStr "Ada"); ("senderEmail", JStr "ada@example.org");
             ("disconnected", JBool true)])
    = Returns ("Sender: Ada <ada@example.org>" +:+ LF
               +:+ "Type: -" +:+ LF
               +:+ "Status: Disconnected" +:+ LF +:+ "---").
Proof.
  apply (format_email_provider_text
           [("senderName", JStr "Ada"); ("senderEmail", JStr "ada@example.org");
            ("disconnected", JBool true)]
           (Some "Ada") (Some "ada@example.org") None).
  - reflexivity.
  - reflexivity.
  - reflexivity.
Defined.

Lemma logout_then_request_tool_run :
  performs_request (request_tool find_phone JNull) = true /\
  serve (answering accepted) (dispatch_and_render (answering accepted))
      [logout; request_tool find_phone JNull] keyed_world
    = (startup,
       [Returns (text_result "Successfully logged out. Your API key has been cleared.");
        Returns (text_result AUTHENTICATION_REQUIRED)]).
Proof.
  split; [reflexivity|].
  apply (logout_then_request_tool (answering accepted)
           (dispatch_and_render (answering accepted))
           (request_tool find_phone JNull) keyed_world).
  reflexivity.
Defined.

Lemma last_authenticate_wins_run :
  network (fst (serve unreachable (dispatch_and_render unreachable)
                  [authenticate "old"; authenticate "new"; get_campaigns None]
                  startup))
    = [(get_campaigns_url None, bearer_request "new" None None)] /\
  req_headers (bearer_request "new" None None) !! "Authorization"
    = Some (JStr "Bearer new").
Proof.
  apply (last_authenticate_wins unreachable (dispatch_and_render unreachable)
           "old" "new" None startup).
  discriminate.
Defined.
